(** * FitFindr: the Pinterest ingestion pipeline of [core/scraper.py]

    A shallow embedding of [PinterestScraper] (constructor, [scrape_pinterest],
    [_generate_mock_items]) and of the module-level entry point
    [scrape_pinterest], followed by the properties the specification states
    about them.
    The dataclass of [core/data.py] and the feedback route of [main.py] are
    embedded as well, the route over the collaborators it calls.

    Conventions of the embedding.
    - A Python value that can come out of [response.json()] or sit in an item
      dictionary is a [pyval]; a Python [int] is a [Z]; a [dict] with string
      keys is a [gmap string pyval].
    - A Python [str] is a Rocq [string], one [ascii] per character.
    - Code that can raise, read the process environment, draw random numbers
      or talk to the network is a computation of the monad [M]: a function of
      the [World] that returns a [result] and the new [World].  A [Raise]
      keeps the [World] it was raised in, so that random draws already made
      and requests already sent stay made and sent.
    - The calls to [print] only write to the console; they neither return a
      value that is used nor change what the functions return, and are left
      out. *)

From Stdlib Require Import ZArith String Ascii List Lia Bool.
From Stdlib Require Import Floats.SpecFloat.
From stdpp Require Import base option list gmap strings pretty.

#[local] Set Warnings "-register-all".
#[local] Open Scope string_scope.
#[local] Open Scope list_scope.
#[local] Open Scope Z_scope.

(** ** Python values *)

Inductive pyval : Type :=
  | PyNone
  | PyBool (b : bool)
  | PyInt (z : Z)
  | PyFloat (f : spec_float)
  | PyStr (s : string)
  | PyList (l : list pyval)
  | PyDict (m : gmap string pyval).

(** The exceptions the modelled code can meet; every one of them is a
    subclass of Python's [Exception]. *)
Inductive exn : Type :=
  | ValueError (msg : string)
  | TypeError
  | AttributeError
  | KeyError
  | RequestException
  | HTTPError (status : Z)
  | JSONDecodeError.

Inductive result (A : Type) : Type :=
  | Ok (a : A)
  | Raise (e : exn).
Arguments Ok {A} a.
Arguments Raise {A} e.

(** Truth value of a Python object, as [not x] and [x or y] test it. *)
Definition truthy (v : pyval) : bool :=
  match v with
  | PyNone => false
  | PyBool b => b
  | PyInt z => negb (Z.eqb z 0)
  | PyFloat (S754_zero _) => false
  | PyFloat _ => true
  | PyStr s => negb (String.eqb s "")
  | PyList l => match l with [] => false | _ => true end
  | PyDict m => match map_to_list m with [] => false | _ => true end
  end.

(** [d.get(k, default)]: only a [dict] has a [get] attribute. *)
Definition py_get (d : pyval) (k : string) (dflt : pyval) : result pyval :=
  match d with
  | PyDict m => Ok (default dflt (m !! k))
  | _ => Raise AttributeError
  end.

(** [needle in hay] for two strings: the substring test. *)
Fixpoint str_contains (needle hay : string) : bool :=
  String.prefix needle hay
  || match hay with
     | EmptyString => false
     | String _ hay' => str_contains needle hay'
     end.

(** [x == k] for a string [k]: among the values of [pyval] only the same
    string is equal to a string. *)
Definition py_eq_str (k : string) (x : pyval) : bool :=
  match x with
  | PyStr s => String.eqb s k
  | _ => false
  end.

(** [k in c] for a string [k]: key membership in a [dict], element
    membership in a [list], substring in a [str]; the other values are not
    containers. *)
Definition py_contains (k : string) (c : pyval) : result bool :=
  match c with
  | PyDict m => Ok (bool_decide (is_Some (m !! k)))
  | PyList l => Ok (existsb (py_eq_str k) l)
  | PyStr s => Ok (str_contains k s)
  | _ => Raise TypeError
  end.

(** [c[k]] for a string [k]: a [dict] looks the key up, a [list] or [str]
    wants an integer index, the other values are not subscriptable. *)
Definition py_getitem (c : pyval) (k : string) : result pyval :=
  match c with
  | PyDict m => match m !! k with Some v => Ok v | None => Raise KeyError end
  | _ => Raise TypeError
  end.

(** [l[:n]] on a sequence: the first [n] elements, and for a negative [n]
    all but the last [-n]. *)
Definition slice_to {A : Type} (l : list A) (n : Z) : list A :=
  if n <? 0 then take (length l - Z.to_nat (- n))%nat l
  else take (Z.to_nat n) l.

(** [v[:n]]: lists and strings can be sliced; a [dict] rejects the slice as a
    key ([TypeError] up to Python 3.11, [KeyError] from 3.12, both caught
    alike) and the other values are not subscriptable. *)
Definition py_slice_to (v : pyval) (n : Z) : result pyval :=
  match v with
  | PyList l => Ok (PyList (slice_to l n))
  | PyStr s =>
      Ok (PyStr (string_of_list_ascii (slice_to (list_ascii_of_string s) n)))
  | _ => Raise TypeError
  end.

(** The elements a [for] loop draws from a value: those of a [list], the
    one-character strings of a [str], the keys of a [dict] (whose order the
    code never depends on: no [dict] reaches the loop). *)
Definition py_iter (v : pyval) : result (list pyval) :=
  match v with
  | PyList l => Ok l
  | PyStr s =>
      Ok (map (fun c => PyStr (String c EmptyString)) (list_ascii_of_string s))
  | PyDict m => Ok (map (fun kv => PyStr (fst kv)) (map_to_list m))
  | _ => Raise TypeError
  end.

(** [range(n)] *)
Definition range (n : Z) : list Z := seqZ 0 n.

(** [s.title()] on ASCII text: a letter that follows a letter is lowered,
    any other letter is raised; characters outside [A-Za-z] are uncased. *)
Definition is_upper (c : ascii) : bool :=
  let n := nat_of_ascii c in (65 <=? n)%nat && (n <=? 90)%nat.
Definition is_lower (c : ascii) : bool :=
  let n := nat_of_ascii c in (97 <=? n)%nat && (n <=? 122)%nat.
Definition is_cased (c : ascii) : bool := is_upper c || is_lower c.
Definition to_upper (c : ascii) : ascii :=
  if is_lower c then ascii_of_nat (nat_of_ascii c - 32) else c.
Definition to_lower (c : ascii) : ascii :=
  if is_upper c then ascii_of_nat (nat_of_ascii c + 32) else c.

Fixpoint title_from (previous_is_cased : bool) (s : string) : string :=
  match s with
  | EmptyString => EmptyString
  | String c s' =>
      String (if previous_is_cased then to_lower c else to_upper c)
             (title_from (is_cased c) s')
  end.

Definition str_title (s : string) : string := title_from false s.

(** ** The world: environment, network and random source *)

(** What [requests] sends: the URL, the query parameters, the headers of the
    session and the timeout in seconds. *)
Record Request : Type := {
  req_url : string;
  req_params : list (string * string);
  req_headers : gmap string string;
  req_timeout : Z;
}.

(** What comes back: the status code, and the body parsed as JSON when it
    parses. *)
Record Response : Type := {
  status_code : Z;
  body : option pyval;
}.

Record World : Type := {
  environ : gmap string string;          (* os.environ, after load_dotenv() *)
  network : Request -> result Response;  (* how the upstream answers *)
  entropy : nat -> Z;                    (* the raw draws of the generator *)
  drawn : nat;                           (* how many draws were made *)
  sent : list Request;                   (* the requests sent so far *)
}.

Definition M (A : Type) : Type := World -> result A * World.

Definition ret {A} (a : A) : M A := fun w => (Ok a, w).
Definition raise {A} (e : exn) : M A := fun w => (Raise e, w).
Definition bind {A B} (m : M A) (k : A -> M B) : M B :=
  fun w => match m w with
           | (Ok a, w') => k a w'
           | (Raise e, w') => (Raise e, w')
           end.
Definition lift {A} (r : result A) : M A := fun w => (r, w).

(** [try: body  except Exception as e: handler(e)] *)
Definition try_except {A} (body : M A) (handler : exn -> M A) : M A :=
  fun w => match body w with
           | (Ok a, w') => (Ok a, w')
           | (Raise e, w') => handler e w'
           end.

Notation "'do' x <- m ; k" := (bind m (fun x => k))
  (at level 10, x name, m at level 100, k at level 200,
   format "'[v' 'do'  x  <-  m ; '/' k ']'").

(** [os.getenv(name)] *)
Definition getenv (name : string) : M (option string) :=
  fun w => (Ok (environ w !! name), w).

(** The world after one more draw of the generator. *)
Definition after_draw (w : World) : World :=
  {| environ := environ w; network := network w; entropy := entropy w;
     drawn := S (drawn w); sent := sent w |}.

(** The world after one more request was sent. *)
Definition after_request (req : Request) (w : World) : World :=
  {| environ := environ w; network := network w; entropy := entropy w;
     drawn := drawn w; sent := sent w ++ [req] |}.

(** [random.randint(a, b)]: [a] plus a draw below [b - a + 1]. *)
Definition randint (a b : Z) : M Z :=
  fun w => (Ok (a + entropy w (drawn w) mod (b - a + 1)), after_draw w).

(** ** Items *)

(** The dictionary built for every pin, with its ten keys.  The values are
    Python values: on the success path most of them are whatever the
    provider sent. *)
Module Item.
Record t : Type := mk {
  id : pyval;
  title : pyval;
  description : pyval;
  image_url : pyval;
  source_url : pyval;
  style : pyval;
  creator : pyval;
  likes : pyval;
  saves : pyval;
  created_at : pyval;
}.
End Item.

(** ** [class PinterestScraper] *)

Module PinterestScraper.

(** [requests.Session]: the headers the code sets on it; those the library
    adds by itself are left out. *)
Record Session : Type := { headers : gmap string string }.

Record t : Type := {
  api_key : string;
  endpoint : string;
  session : Session;
}.

Definition missing_key_message : string :=
  "❌ Missing SCRAPE_CREATORS_KEY in .env file".

(** [__init__]: [not self.api_key] holds for [None] and for the empty
    string. *)
Definition __init__ : M t :=
  do api_key <- getenv "SCRAPE_CREATORS_KEY";
  match api_key with
  | None => raise (ValueError missing_key_message)
  | Some key =>
      if String.eqb key "" then raise (ValueError missing_key_message)
      else
        ret {| api_key := key;
               endpoint := "https://api.scrapecreators.com/v1/pinterest/search";
               session := {| headers := {[ "x-api-key" := key ]} |} |}
  end.

(** [self.session.get(url, params=params, timeout=timeout)]: the request
    goes out, and the upstream answers or the transport fails. *)
Definition session_get (s : Session) (url : string)
    (params : list (string * string)) (timeout : Z) : M Response :=
  fun w =>
    let req := {| req_url := url; req_params := params;
                  req_headers := headers s; req_timeout := timeout |} in
    (network w req, after_request req w).

(** [response.raise_for_status()] *)
Definition raise_for_status (r : Response) : M unit :=
  if (400 <=? status_code r) && (status_code r <? 600)
  then raise (HTTPError (status_code r))
  else ret tt.

(** [response.json()] *)
Definition json (r : Response) : M pyval :=
  match body r with
  | Some v => ret v
  | None => raise JSONDecodeError
  end.

(** One iteration of the loop of [_generate_mock_items]: the dictionary
    appended for index [i]. *)
Definition mock_item (keyword : string) (i : Z) : M Item.t :=
  do likes <- randint 50 500;
  do saves <- randint 10 100;
  ret {| Item.id := PyStr ("mock_" +:+ pretty (i + 1));
         Item.title :=
           PyStr ("Mock " +:+ str_title keyword +:+ " Item " +:+ pretty (i + 1));
         Item.description := PyStr ("Demo fallback " +:+ keyword +:+ " item.");
         Item.image_url :=
           PyStr ("https://picsum.photos/300/400?random=" +:+ pretty (i + 1));
         Item.source_url := PyStr "https://pinterest.com";
         Item.style := PyStr keyword;
         Item.creator := PyStr "Mock User";
         Item.likes := PyInt likes;
         Item.saves := PyInt saves;
         Item.created_at := PyStr "2025-01-01T00:00:00Z" |}.

(** The loop [for i in range(count): items.append({...})], on the indices
    still to come and the list built so far. *)
Fixpoint mock_loop (keyword : string) (indices : list Z)
    (items : list Item.t) : M (list Item.t) :=
  match indices with
  | [] => ret items
  | i :: rest =>
      do item <- mock_item keyword i;
      mock_loop keyword rest (items ++ [item])
  end.

Definition _generate_mock_items (keyword : string) (count : Z)
    : M (list Item.t) :=
  mock_loop keyword (range count) [].

(** The body of the loop of [scrape_pinterest] for the pin at index [i]:
    the dictionary appended for it.  The entries are evaluated in the
    order of the dictionary display. *)
Definition map_pin (keyword : string) (i : Z) (pin : pyval) : M Item.t :=
  do images <- lift (py_get pin "images" (PyDict ∅));
  do has_orig <- lift (py_contains "orig" images);
  do image_url <-
    (if has_orig : bool then
       do orig <- lift (py_getitem images "orig");
       lift (py_get orig "url" (PyStr ""))
     else ret (PyStr ""));
  do id <- lift (py_get pin "id" (PyStr ("pin_" +:+ pretty (i + 1))));
  do grid_title <- lift (py_get pin "grid_title" PyNone);
  do title <-
    (if truthy grid_title then ret grid_title
     else lift (py_get pin "description" (PyStr "")));
  do description <- lift (py_get pin "description" (PyStr ""));
  do source_url <- lift (py_get pin "url" PyNone);
  do pinner <- lift (py_get pin "pinner" (PyDict ∅));
  do creator <- lift (py_get pinner "full_name" (PyStr ""));
  do likes <- randint 50 500;
  do saves <- randint 10 100;
  do created_at <- lift (py_get pin "created_at" PyNone);
  ret {| Item.id := id;
         Item.title := title;
         Item.description := description;
         Item.image_url := image_url;
         Item.source_url := source_url;
         Item.style := PyStr keyword;
         Item.creator := creator;
         Item.likes := PyInt likes;
         Item.saves := PyInt saves;
         Item.created_at := created_at |}.

(** The loop [for i, pin in enumerate(...): items.append(item)], on the
    pins still to come, the index of the next one and the list built so
    far. *)
Fixpoint pin_loop (keyword : string) (i : Z) (pins : list pyval)
    (items : list Item.t) : M (list Item.t) :=
  match pins with
  | [] => ret items
  | pin :: rest =>
      do item <- map_pin keyword i pin;
      pin_loop keyword (i + 1) rest (items ++ [item])
  end.

(** Lines 37 to 42: the request and the decoding of its answer. *)
Definition fetch (self : t) (keyword : string) : M pyval :=
  let params := [("query", keyword); ("trim", "true")] in
  do response <- session_get (session self) (endpoint self) params 10;
  do _ <- raise_for_status response;
  json response.

(** Lines 44 to 72: what is done with the decoded answer. *)
Definition normalize (keyword : string) (max_items : Z) (data : pyval)
    : M (list Item.t) :=
  do success <- lift (py_get data "success" PyNone);
  if negb (truthy success) then _generate_mock_items keyword max_items
  else
    do pins <- lift (py_get data "pins" (PyList []));
    do head <- lift (py_slice_to pins max_items);
    do elems <- lift (py_iter head);
    pin_loop keyword 0 elems [].

(** The [try] block of [scrape_pinterest]. *)
Definition scrape_body (self : t) (keyword : string) (max_items : Z)
    : M (list Item.t) :=
  do data <- fetch self keyword;
  normalize keyword max_items data.

Definition scrape_pinterest (self : t) (keyword : string) (max_items : Z)
    : M (list Item.t) :=
  try_except (scrape_body self keyword max_items)
             (fun _ => _generate_mock_items keyword max_items).

End PinterestScraper.

(** ** The module-level entry point *)

Definition scrape_pinterest (keyword : string) (max_items : Z)
    : M (list Item.t) :=
  do scraper <- PinterestScraper.__init__;
  PinterestScraper.scrape_pinterest scraper keyword max_items.

Definition get_trending_styles : list string :=
  [ "vintage streetwear"; "minimalist chic"; "bohemian"; "athleisure";
    "cottagecore"; "dark academia"; "y2k"; "normcore" ].

(** ** [core/data.py] *)

Module ClothingItem.

(** An instance, as its attribute dictionary. *)
Record t : Type := { attrs : gmap string pyval }.

(** The constructor the [dataclass] decorator generates from the three
    declared fields; the annotations are not checked at run time. *)
Definition __init__ (name category size : pyval) : t :=
  {| attrs := {[ "name" := name; "category" := category; "size" := size ]} |}.

(** [self.attr = v] *)
Definition setattr (self : t) (attr : string) (v : pyval) : t :=
  {| attrs := <[attr := v]> (attrs self) |}.

(** [self.attr], for a name the class itself does not define. *)
Definition getattr (self : t) (attr : string) : result pyval :=
  match attrs self !! attr with
  | Some v => Ok v
  | None => Raise AttributeError
  end.

(** [total_cost]: the product is Python's [*], taken as [mul]; its left
    operand is evaluated first. *)
Definition total_cost (mul : pyval -> pyval -> result pyval) (self : t)
    : result pyval :=
  match getattr self "unit_price" with
  | Raise e => Raise e
  | Ok unit_price =>
      match getattr self "quantity_on_hand" with
      | Raise e => Raise e
      | Ok quantity_on_hand => mul unit_price quantity_on_hand
      end
  end.

End ClothingItem.

(** ** [main.py]: the feedback route *)

(** What a route can raise: FastAPI's [HTTPException], or any other
    exception. *)
Inductive route_exn : Type :=
  | HTTPException (status_code : Z) (detail : string)
  | PyException (e : exn).

Inductive outcome (A : Type) : Type :=
  | Return (a : A)
  | Raised (e : route_exn).
Arguments Return {A} a.
Arguments Raised {A} e.

(** The parts of the application the route calls and [str], over whatever
    state [S] they keep: [record_feedback] gets the payload dictionary and
    gives back its result together with the payload as it left it. *)
Record Collaborators (S : Type) : Type := {
  record_feedback :
    gmap string pyval -> S -> outcome (pyval * gmap string pyval) * S;
  log_activity : string -> gmap string pyval -> S -> outcome unit * S;
  str : route_exn -> string;
}.
Arguments record_feedback {S} _ _ _.
Arguments log_activity {S} _ _ _ _.
Arguments str {S} _ _.

(** [d[k]] on a dictionary *)
Definition subscript (d : gmap string pyval) (k : string) : outcome pyval :=
  match d !! k with
  | Some v => Return v
  | None => Raised (PyException KeyError)
  end.

(** The loop over the required fields: the first one that is not a key of
    the payload raises. *)
Fixpoint check_required (fields : list string) (payload : gmap string pyval)
    : outcome unit :=
  match fields with
  | [] => Return tt
  | field :: rest =>
      if bool_decide (is_Some (payload !! field))
      then check_required rest payload
      else Raised (HTTPException 400 ("Missing required field: " +:+ field))
  end.

(** The [try] block of [feedback_route]. *)
Definition feedback_try {S : Type} (c : Collaborators S)
    (payload : gmap string pyval) (st : S) : outcome pyval * S :=
  match check_required ["user_id"; "item_id"; "feedback_type"] payload with
  | Raised e => (Raised e, st)
  | Return _ =>
      match record_feedback c payload st with
      | (Raised e, st1) => (Raised e, st1)
      | (Return (fb, payload1), st1) =>
          match subscript payload1 "user_id" with
          | Raised e => (Raised e, st1)
          | Return user_id =>
          match subscript payload1 "item_id" with
          | Raised e => (Raised e, st1)
          | Return item_id =>
          match subscript payload1 "feedback_type" with
          | Raised e => (Raised e, st1)
          | Return feedback_type =>
              match log_activity c "feedback_recorded"
                      {[ "user_id" := user_id; "item_id" := item_id;
                         "feedback_type" := feedback_type ]} st1 with
              | (Raised e, st2) => (Raised e, st2)
              | (Return _, st2) =>
                  (Return
                     (PyDict {[ "message" :=
                                  PyStr "Feedback recorded successfully";
                                "feedback" := fb ]}),
                   st2)
              end
          end end end
      end
  end.

Definition feedback_route {S : Type} (c : Collaborators S)
    (payload : gmap string pyval) (st : S) : outcome pyval * S :=
  match feedback_try c payload st with
  | (Return v, st1) => (Return v, st1)
  | (Raised e, st1) =>
      match log_activity c "feedback_error"
              {[ "error" := PyStr (str c e) ]} st1 with
      | (Raised e', st2) => (Raised e', st2)
      | (Return _, st2) =>
          (Raised
             (HTTPException 500 ("Error recording feedback: " +:+ str c e)),
           st2)
      end
  end.

(** * Predicates of the statements *)

(** What the dictionary of one fallback item looks like, for the loop index
    [i] (counted from zero). *)
Definition is_mock_item (keyword : string) (i : Z) (item : Item.t) : Prop :=
  exists likes saves : Z,
    50 <= likes <= 500 /\ 10 <= saves <= 100 /\
    item =
      {| Item.id := PyStr ("mock_" +:+ pretty (i + 1));
         Item.title :=
           PyStr ("Mock " +:+ str_title keyword +:+ " Item " +:+ pretty (i + 1));
         Item.description := PyStr ("Demo fallback " +:+ keyword +:+ " item.");
         Item.image_url :=
           PyStr ("https://picsum.photos/300/400?random=" +:+ pretty (i + 1));
         Item.source_url := PyStr "https://pinterest.com";
         Item.style := PyStr keyword;
         Item.creator := PyStr "Mock User";
         Item.likes := PyInt likes;
         Item.saves := PyInt saves;
         Item.created_at := PyStr "2025-01-01T00:00:00Z" |}.

(** The url picked from the value stored under ["images"] (lines 53-55):
    the ["url"] of its ["orig"] entry, or the empty string. *)
Definition orig_url (images : pyval) : result pyval :=
  match py_contains "orig" images with
  | Ok true =>
      match py_getitem images "orig" with
      | Ok orig => py_get orig "url" (PyStr "")
      | Raise e => Raise e
      end
  | Ok false => Ok (PyStr "")
  | Raise e => Raise e
  end.

Definition is_Ok {A} (r : result A) : bool :=
  match r with Ok _ => true | Raise _ => false end.

(** The pins the loop body accepts: dictionaries whose ["images"] entry
    yields a url without raising and whose ["pinner"] entry, when there is
    one, is a dictionary. *)
Definition well_formed_pin (pin : pyval) : bool :=
  match pin with
  | PyDict p =>
      is_Ok (orig_url (default (PyDict ∅) (p !! "images")))
      && is_Ok (py_get (default (PyDict ∅) (p !! "pinner")) "full_name"
                       (PyStr ""))
  | _ => false
  end.

(** [item] is what the loop body builds for [pin] at index [i], for some
    state of the random source. *)
Definition maps_to (keyword : string) (i : Z) (pin : pyval) (item : Item.t)
    : Prop :=
  exists w w', PinterestScraper.map_pin keyword i pin w = (Ok item, w').

(** [items] are what the loop builds for [pins], one item per pin, in order,
    the first pin having index [i]. *)
Inductive mapped (keyword : string) : Z -> list pyval -> list Item.t -> Prop :=
  | mapped_nil i : mapped keyword i [] []
  | mapped_cons i pin item pins items :
      maps_to keyword i pin item ->
      mapped keyword (i + 1) pins items ->
      mapped keyword i (pin :: pins) (item :: items).

(** The likes and saves of an item are integers in their ranges. *)
Definition engagement_in_range (item : Item.t) : Prop :=
  exists l s : Z,
    Item.likes item = PyInt l /\ 50 <= l <= 500
    /\ Item.saves item = PyInt s /\ 10 <= s <= 100.

(** ** Sample inputs *)

Definition sample_key : string := "sk-test".

Definition sample_self : PinterestScraper.t :=
  {| PinterestScraper.api_key := sample_key;
     PinterestScraper.endpoint :=
       "https://api.scrapecreators.com/v1/pinterest/search";
     PinterestScraper.session :=
       {| PinterestScraper.headers := {[ "x-api-key" := sample_key ]} |} |}.

(** A world whose upstream gives the same [reply] to every request. *)
Definition sample_world (env : gmap string string) (reply : result Response)
    : World :=
  {| environ := env;
     network := fun _ => reply;
     entropy := fun k => 37 * Z.of_nat k + 5;
     drawn := 0;
     sent := [] |}.

Definition with_key : gmap string string :=
  {[ "SCRAPE_CREATORS_KEY" := sample_key ]}.

Definition answer (data : pyval) : result Response :=
  Ok {| status_code := 200; body := Some data |}.

Definition pin_bare : pyval := PyDict {[ "id" := PyStr "p2" ]}.

Definition empty_title_fields : gmap string pyval :=
  {[ "grid_title" := PyStr ""; "description" := PyStr "d" ]}.

Definition pin_empty_title : pyval := PyDict empty_title_fields.

Definition full_fields : gmap string pyval :=
  {[ "id" := PyStr "p1";
     "grid_title" := PyStr "Linen dress";
     "description" := PyStr "A linen summer dress";
     "images" :=
       PyDict {[ "orig" :=
                   PyDict {[ "url" := PyStr "https://i.pinimg.com/p1.jpg" ]} ]};
     "url" := PyStr "https://pinterest.com/pin/p1";
     "pinner" := PyDict {[ "full_name" := PyStr "Ana" ]};
     "created_at" := PyStr "2024-05-01T10:00:00Z" ]}.

Definition pin_full : pyval := PyDict full_fields.

Definition three_pins : pyval :=
  PyDict {[ "success" := PyBool true;
            "pins" := PyList [pin_full; pin_bare; pin_empty_title] ]}.

Definition no_pins : pyval :=
  PyDict {[ "success" := PyBool true; "pins" := PyList [] ]}.

Definition one_bare_pin : pyval :=
  PyDict {[ "success" := PyBool true; "pins" := PyList [pin_bare] ]}.

Definition unsuccessful : pyval :=
  PyDict {[ "success" := PyBool false; "pins" := PyList [pin_full] ]}.

Definition no_indicator : pyval :=
  PyDict {[ "pins" := PyList [pin_full] ]}.

(** ** Further predicates and sample inputs *)

(** The request [scrape_pinterest] sends for a keyword (lines 37-40). *)
Definition request_for (self : PinterestScraper.t) (keyword : string)
    : Request :=
  {| req_url := PinterestScraper.endpoint self;
     req_params := [("query", keyword); ("trim", "true")];
     req_headers := PinterestScraper.headers (PinterestScraper.session self);
     req_timeout := 10 |}.

(** [w'] differs from [w] at most in the number of draws made. *)
Definition same_channels (w w' : World) : Prop :=
  environ w' = environ w /\ network w' = network w
  /\ entropy w' = entropy w /\ sent w' = sent w.

(** A computation that sends nothing and leaves the environment alone. *)
Definition quiet {A} (m : M A) : Prop :=
  forall w, same_channels w (snd (m w)).

(** The item with its two random fields blanked. *)
Definition without_engagement (item : Item.t) : Item.t :=
  {| Item.id := Item.id item;
     Item.title := Item.title item;
     Item.description := Item.description item;
     Item.image_url := Item.image_url item;
     Item.source_url := Item.source_url item;
     Item.style := Item.style item;
     Item.creator := Item.creator item;
     Item.likes := PyNone;
     Item.saves := PyNone;
     Item.created_at := Item.created_at item |}.

(** The pin is a dictionary with an ["id"] key. *)
Definition has_id (pin : pyval) : bool :=
  match pin with
  | PyDict p => bool_decide (is_Some (p !! "id"))
  | _ => false
  end.

Definition pin_null_images : pyval :=
  PyDict {[ "id" := PyStr "p3"; "images" := PyNone ]}.

Definition pin_no_id : pyval := PyDict {[ "grid_title" := PyStr "Denim" ]}.

Definition one_bad_pin : pyval :=
  PyDict {[ "success" := PyBool true;
            "pins" := PyList [pin_full; pin_null_images; pin_bare] ]}.

Definition no_ids : pyval :=
  PyDict {[ "success" := PyBool true;
            "pins" := PyList [pin_no_id; pin_empty_title; pin_no_id] ]}.

Definition string_pins : pyval :=
  PyDict {[ "success" := PyBool true; "pins" := PyStr "oops" ]}.

Definition string_indicator : pyval :=
  PyDict {[ "success" := PyStr "false"; "pins" := PyList [pin_bare] ]}.

(** Collaborators that keep the log of activities as their state. *)
Definition sample_collaborators : Collaborators (list string) :=
  {| record_feedback := fun payload st =>
       (Return (PyDict payload, payload), st);
     log_activity := fun name _ st => (Return tt, st ++ [name]);
     str := fun e =>
       match e with
       | HTTPException code detail => pretty code +:+ ": " +:+ detail
       | PyException _ => "error"
       end |}.

Definition full_feedback : gmap string pyval :=
  {[ "user_id" := PyStr "u1"; "item_id" := PyStr "mock_1";
     "feedback_type" := PyStr "like" ]}.

Definition partial_feedback : gmap string pyval :=
  {[ "user_id" := PyStr "u1"; "feedback_type" := PyStr "like" ]}.

(** * Properties of the embedding *)

(** ** The monad *)

Lemma bind_Ok {A B} (m : M A) (k : A -> M B) w a w' :
  m w = (Ok a, w') -> bind m k w = k a w'.
Proof. intros H. unfold bind. now rewrite H. Qed.

Lemma bind_Raise {A B} (m : M A) (k : A -> M B) w e w' :
  m w = (Raise e, w') -> bind m k w = (Raise e, w').
Proof. intros H. unfold bind. now rewrite H. Qed.

Lemma bind_inv_Ok {A B} (m : M A) (k : A -> M B) w b w' :
  bind m k w = (Ok b, w') ->
  exists a w1, m w = (Ok a, w1) /\ k a w1 = (Ok b, w').
Proof.
  unfold bind. destruct (m w) as [[a|e] w1]; intros H.
  - now exists a, w1.
  - discriminate H.
Qed.

Lemma bind_lift_inv_Ok {A B} (r : result A) (k : A -> M B) w b w' :
  bind (lift r) k w = (Ok b, w') ->
  exists a, r = Ok a /\ k a w = (Ok b, w').
Proof.
  intros H. apply bind_inv_Ok in H as (a & w1 & Hr & Hk).
  unfold lift in Hr. injection Hr as -> <-. now exists a.
Qed.

(** ** The random source *)

Lemma randint_range (a b : Z) (w : World) :
  a <= b ->
  exists v, randint a b w = (Ok v, after_draw w) /\ a <= v <= b.
Proof.
  intros Hab. eexists. split; [reflexivity|].
  pose proof (Z.mod_pos_bound (entropy w (drawn w)) (b - a + 1)). lia.
Qed.

(** ** The fallback generator *)

Lemma mock_item_spec (keyword : string) (i : Z) (w : World) :
  exists item,
    PinterestScraper.mock_item keyword i w
      = (Ok item, after_draw (after_draw w))
    /\ is_mock_item keyword i item.
Proof.
  unfold PinterestScraper.mock_item.
  destruct (randint_range 50 500 w) as (l & Hl & Hlr); [lia|].
  destruct (randint_range 10 100 (after_draw w)) as (s & Hs & Hsr); [lia|].
  rewrite (bind_Ok _ _ _ _ _ Hl), (bind_Ok _ _ _ _ _ Hs).
  eexists. split; [reflexivity|]. now exists l, s.
Qed.

Lemma mock_loop_spec (keyword : string) (indices : list Z) :
  forall (acc : list Item.t) (w : World),
  exists new w',
    PinterestScraper.mock_loop keyword indices acc w = (Ok (acc ++ new), w')
    /\ Forall2 (is_mock_item keyword) indices new
    /\ sent w' = sent w.
Proof.
  induction indices as [|i rest IH]; intros acc w; simpl.
  - exists [], w. rewrite app_nil_r. repeat split. constructor.
  - destruct (mock_item_spec keyword i w) as (item & Hitem & Hshape).
    rewrite (bind_Ok _ _ _ _ _ Hitem).
    destruct (IH (acc ++ [item]) (after_draw (after_draw w)))
      as (new & w' & Hrun & Hall & Hsent).
    exists (item :: new), w'. split; [|split].
    + rewrite Hrun. now rewrite <- app_assoc.
    + now constructor.
    + exact Hsent.
Qed.

Lemma generate_mock_items_spec (keyword : string) (count : Z) (w : World) :
  exists items w',
    PinterestScraper._generate_mock_items keyword count w = (Ok items, w')
    /\ Forall2 (is_mock_item keyword) (range count) items
    /\ sent w' = sent w.
Proof.
  unfold PinterestScraper._generate_mock_items.
  destruct (mock_loop_spec keyword (range count) [] w) as (new & w' & H).
  now exists new, w'.
Qed.

Lemma mock_id_inj : Inj (=) (=) (fun i : Z => PyStr ("mock_" +:+ pretty (i + 1))).
Proof.
  intros i j H. injection H as H. simpl in H.
  apply pretty_Z_inj in H. lia.
Qed.

Lemma mock_image_inj :
  Inj (=) (=)
      (fun i : Z =>
         PyStr ("https://picsum.photos/300/400?random=" +:+ pretty (i + 1))).
Proof.
  intros i j H. injection H as H. simpl in H.
  apply pretty_Z_inj in H. lia.
Qed.

Lemma mock_items_fmap (keyword : string) (f : Item.t -> pyval) (g : Z -> pyval)
    (indices : list Z) (items : list Item.t) :
  (forall i item, is_mock_item keyword i item -> f item = g i) ->
  Forall2 (is_mock_item keyword) indices items ->
  f <$> items = g <$> indices.
Proof.
  intros Hfg Hall. induction Hall as [|i item is' its Hi _ IH].
  - reflexivity.
  - now rewrite !fmap_cons, (Hfg _ _ Hi), IH.
Qed.

(** ** The mapping of one pin *)

(** Splits a successful run of a sequence of binds into its steps. *)
Ltac bind_inv H :=
  repeat
    (first
       [ let a := fresh "v" in
         let Ha := fresh "Hv" in
         apply bind_lift_inv_Ok in H as (a & Ha & H)
       | let a := fresh "v" in
         let w1 := fresh "w" in
         let Ha := fresh "Hv" in
         apply bind_inv_Ok in H as (a & w1 & Ha & H) ]).

(** A pin that was mapped is a dictionary, and every entry of its item is
    determined by the pin, the keyword, the index and two draws. *)
Lemma map_pin_inv (keyword : string) (i : Z) (pin : pyval) (w w' : World)
    (item : Item.t) :
  PinterestScraper.map_pin keyword i pin w = (Ok item, w') ->
  exists (p : gmap string pyval) (image_url creator : pyval) (l s : Z),
    pin = PyDict p
    /\ orig_url (default (PyDict ∅) (p !! "images")) = Ok image_url
    /\ py_get (default (PyDict ∅) (p !! "pinner")) "full_name" (PyStr "")
       = Ok creator
    /\ 50 <= l <= 500 /\ 10 <= s <= 100
    /\ w' = after_draw (after_draw w)
    /\ item =
       {| Item.id := default (PyStr ("pin_" +:+ pretty (i + 1))) (p !! "id");
          Item.title :=
            (if truthy (default PyNone (p !! "grid_title"))
             then default PyNone (p !! "grid_title")
             else default (PyStr "") (p !! "description"));
          Item.description := default (PyStr "") (p !! "description");
          Item.image_url := image_url;
          Item.source_url := default PyNone (p !! "url");
          Item.style := PyStr keyword;
          Item.creator := creator;
          Item.likes := PyInt l;
          Item.saves := PyInt s;
          Item.created_at := default PyNone (p !! "created_at") |}.
Proof.
  intros H. unfold PinterestScraper.map_pin in H.
  destruct pin as [| | | | | |p];
    try (apply bind_lift_inv_Ok in H as (? & Hget & _); discriminate Hget).
  bind_inv H.
  repeat match goal with
         | Hg : py_get (PyDict p) _ _ = Ok _ |- _ =>
             simpl in Hg; injection Hg as <-
         end.
  injection Hv9 as <-. injection Hv10 as <-.
  unfold ret in H. injection H as <- <-.
  assert (Hw0 : w0 = w
                /\ orig_url (default (PyDict ∅) (p !! "images")) = Ok v1).
  { unfold orig_url. rewrite Hv0. destruct v0.
    - bind_inv Hv1. rewrite Hv. unfold lift in Hv1.
      injection Hv1 as Hurl <-. now split.
    - unfold ret in Hv1. injection Hv1 as <- <-. now split. }
  destruct Hw0 as (-> & Himg).
  assert (Hw1 : w1 = w
                /\ v4 = (if truthy (default PyNone (p !! "grid_title"))
                         then default PyNone (p !! "grid_title")
                         else default (PyStr "") (p !! "description"))).
  { destruct (truthy _); [unfold ret in Hv4|unfold lift in Hv4; simpl in Hv4];
      injection Hv4 as <- <-; now split. }
  destruct Hw1 as (-> & ->).
  pose proof (Z.mod_pos_bound (entropy w (drawn w)) (500 - 50 + 1)).
  pose proof (Z.mod_pos_bound (entropy (after_draw w) (drawn (after_draw w)))
                (100 - 10 + 1)).
  exists p, v1, v8, (50 + entropy w (drawn w) `mod` (500 - 50 + 1)),
    (10 + entropy (after_draw w) (drawn (after_draw w)) `mod` (100 - 10 + 1)).
  repeat split; try assumption; lia.
Qed.

Lemma map_pin_well_formed (keyword : string) (i : Z) (pin : pyval) (w : World) :
  well_formed_pin pin = true ->
  exists item,
    PinterestScraper.map_pin keyword i pin w
      = (Ok item, after_draw (after_draw w)).
Proof.
  destruct pin as [| | | | | |p]; try discriminate. simpl.
  intros [Himg Hpin]%andb_prop.
  destruct (py_get (default _ (p !! "pinner")) _ _) as [c|] eqn:Hc;
    try discriminate.
  unfold orig_url in Himg.
  unfold PinterestScraper.map_pin, bind, lift, ret, randint.
  cbn [py_get].
  destruct (py_contains "orig" _) as [[|]|]; try discriminate.
  - destruct (py_getitem _ "orig") as [orig|]; try discriminate.
    destruct (py_get orig "url" _) as [u|]; try discriminate.
    rewrite Hc. destruct (truthy _); eexists; reflexivity.
  - rewrite Hc. destruct (truthy _); eexists; reflexivity.
Qed.

Lemma map_pin_Ok_well_formed (keyword : string) (i : Z) (pin : pyval)
    (w w' : World) (item : Item.t) :
  PinterestScraper.map_pin keyword i pin w = (Ok item, w') ->
  well_formed_pin pin = true.
Proof.
  intros H. apply map_pin_inv in H
    as (p & u & c & l & s & -> & Himg & Hpin & _).
  simpl. now rewrite Himg, Hpin.
Qed.

Lemma mapped_length keyword i pins items :
  mapped keyword i pins items -> length items = length pins.
Proof. induction 1; simpl; congruence. Qed.

Lemma mapped_lookup keyword i pins items :
  mapped keyword i pins items ->
  forall (j : nat) (item : Item.t),
    items !! j = Some item ->
    exists pin, pins !! j = Some pin
                /\ maps_to keyword (i + Z.of_nat j) pin item.
Proof.
  induction 1 as [|i pin item pins items Hhd _ IH]; intros j it Hj.
  - discriminate Hj.
  - destruct j as [|j]; simpl in Hj.
    + injection Hj as <-. exists pin. split; [reflexivity|].
      now replace (i + Z.of_nat 0) with i by lia.
    + destruct (IH j it Hj) as (pin' & Hpin' & Hmap).
      exists pin'. split; [exact Hpin'|].
      now replace (i + Z.of_nat (S j)) with (i + 1 + Z.of_nat j) by lia.
Qed.

Lemma mapped_Forall keyword (P : Item.t -> Prop) i pins items :
  (forall j pin item, maps_to keyword j pin item -> P item) ->
  mapped keyword i pins items -> Forall P items.
Proof. intros HP. induction 1; constructor; eauto. Qed.

Lemma pin_loop_inv (keyword : string) (pins : list pyval) :
  forall (i : Z) (acc : list Item.t) (w w' : World) (items : list Item.t),
    PinterestScraper.pin_loop keyword i pins acc w = (Ok items, w') ->
    exists new, items = acc ++ new /\ mapped keyword i pins new.
Proof.
  induction pins as [|pin rest IH]; intros i acc w w' items H; simpl in H.
  - unfold ret in H. injection H as <- <-. exists [].
    split; [now rewrite app_nil_r | constructor].
  - apply bind_inv_Ok in H as (item & w1 & Hitem & H).
    apply IH in H as (new & -> & Hnew).
    exists (item :: new). split; [now rewrite <- app_assoc|].
    constructor; [now exists w, w1 | exact Hnew].
Qed.

Lemma pin_loop_total (keyword : string) (pins : list pyval) :
  forall (i : Z) (acc : list Item.t) (w : World),
    Forall (fun pin => well_formed_pin pin = true) pins ->
    exists new w',
      PinterestScraper.pin_loop keyword i pins acc w = (Ok (acc ++ new), w')
      /\ mapped keyword i pins new
      /\ sent w' = sent w.
Proof.
  induction pins as [|pin rest IH]; intros i acc w Hwf; simpl.
  - exists [], w. rewrite app_nil_r. repeat split. constructor.
  - apply Forall_cons_1 in Hwf as [Hpin Hrest].
    destruct (map_pin_well_formed keyword i pin w Hpin) as (item & Hitem).
    rewrite (bind_Ok _ _ _ _ _ Hitem).
    destruct (IH (i + 1) (acc ++ [item]) (after_draw (after_draw w)) Hrest)
      as (new & w' & Hrun & Hnew & Hsent).
    exists (item :: new), w'. split; [|split].
    + rewrite Hrun. now rewrite <- app_assoc.
    + constructor; [now exists w, (after_draw (after_draw w)) | exact Hnew].
    + exact Hsent.
Qed.

(** A pin that raises makes the whole loop raise. *)
Lemma pin_loop_malformed (keyword : string) (pins : list pyval) :
  forall (i : Z) (acc : list Item.t) (w : World),
    Exists (fun pin => well_formed_pin pin = false) pins ->
    exists e w', PinterestScraper.pin_loop keyword i pins acc w = (Raise e, w').
Proof.
  induction pins as [|pin rest IH]; intros i acc w Hex.
  - inversion Hex.
  - simpl. unfold bind at 1.
    destruct (PinterestScraper.map_pin keyword i pin w) as [[item|e] w1] eqn:Hpin.
    + apply IH. inversion Hex as [? ? Hbad|]; subst; [|assumption].
      apply map_pin_Ok_well_formed in Hpin. congruence.
    + now exists e, w1.
Qed.

(** ** The pipeline *)

Lemma normalize_unsuccessful (keyword : string) (max_items : Z)
    (m : gmap string pyval) (w : World) :
  truthy (default PyNone (m !! "success")) = false ->
  PinterestScraper.normalize keyword max_items (PyDict m) w
  = PinterestScraper._generate_mock_items keyword max_items w.
Proof.
  intros Hs. unfold PinterestScraper.normalize, bind, lift. cbn [py_get].
  now rewrite Hs.
Qed.

Lemma normalize_successful (keyword : string) (max_items : Z)
    (m : gmap string pyval) (l : list pyval) (w : World) :
  truthy (default PyNone (m !! "success")) = true ->
  default (PyList []) (m !! "pins") = PyList l ->
  PinterestScraper.normalize keyword max_items (PyDict m) w
  = PinterestScraper.pin_loop keyword 0 (slice_to l max_items) [] w.
Proof.
  intros Hs Hp. unfold PinterestScraper.normalize, bind, lift. cbn [py_get].
  now rewrite Hs, Hp.
Qed.

Lemma scrape_pinterest_unfold (self : PinterestScraper.t) (keyword : string)
    (max_items : Z) (w : World) :
  PinterestScraper.scrape_pinterest self keyword max_items w
  = match PinterestScraper.fetch self keyword w with
    | (Ok data, w1) =>
        try_except (PinterestScraper.normalize keyword max_items data)
          (fun _ => PinterestScraper._generate_mock_items keyword max_items) w1
    | (Raise e, w1) =>
        PinterestScraper._generate_mock_items keyword max_items w1
    end.
Proof.
  unfold PinterestScraper.scrape_pinterest, PinterestScraper.scrape_body,
    try_except, bind.
  now destruct (PinterestScraper.fetch self keyword w) as [[data|e] w1].
Qed.

(** Whatever the method returns was built by one of the two paths: by the
    fallback generator, or by the loop over the elements of the sliced
    record list of a payload whose success indicator is true. *)
Lemma scrape_pinterest_paths (self : PinterestScraper.t) (keyword : string)
    (max_items : Z) (w w' : World) (items : list Item.t) :
  PinterestScraper.scrape_pinterest self keyword max_items w = (Ok items, w') ->
  (exists w1,
      PinterestScraper._generate_mock_items keyword max_items w1
      = (Ok items, w'))
  \/ (exists elems, mapped keyword 0 elems items).
Proof.
  rewrite scrape_pinterest_unfold.
  destruct (PinterestScraper.fetch self keyword w) as [[data|e] w1];
    [|intros H; left; now exists w1].
  unfold try_except.
  destruct (PinterestScraper.normalize keyword max_items data w1)
    as [[its|e] w2] eqn:Hn; [|intros H; left; now exists w2].
  intros H. injection H as -> ->.
  unfold PinterestScraper.normalize in Hn.
  apply bind_lift_inv_Ok in Hn as (success & _ & Hn).
  destruct (truthy success); simpl in Hn; [|left; now exists w1].
  bind_inv Hn. apply pin_loop_inv in Hn as (new & -> & Hnew).
  right. now exists v1.
Qed.

(** The method never raises. *)
Lemma scrape_pinterest_total (self : PinterestScraper.t) (keyword : string)
    (max_items : Z) (w : World) :
  exists items w',
    PinterestScraper.scrape_pinterest self keyword max_items w = (Ok items, w').
Proof.
  rewrite scrape_pinterest_unfold.
  destruct (PinterestScraper.fetch self keyword w) as [[data|e] w1].
  - unfold try_except.
    destruct (PinterestScraper.normalize keyword max_items data w1)
      as [[its|e] w2].
    + now exists its, w2.
    + destruct (generate_mock_items_spec keyword max_items w2)
        as (items & w' & H & _). now exists items, w'.
  - destruct (generate_mock_items_spec keyword max_items w1)
      as (items & w' & H & _). now exists items, w'.
Qed.

(** One record the loop body rejects among those of the slice is enough for
    the whole answer to be replaced by the fallback list. *)
Lemma malformed_record_falls_back (self : PinterestScraper.t)
    (keyword : string) (max_items : Z) (w w1 : World)
    (m : gmap string pyval) (l : list pyval) :
  PinterestScraper.fetch self keyword w = (Ok (PyDict m), w1) ->
  truthy (default PyNone (m !! "success")) = true ->
  default (PyList []) (m !! "pins") = PyList l ->
  Exists (fun pin => well_formed_pin pin = false) (slice_to l max_items) ->
  exists w2,
    PinterestScraper.scrape_pinterest self keyword max_items w
    = PinterestScraper._generate_mock_items keyword max_items w2.
Proof.
  intros Hfetch Hs Hpins Hbad.
  rewrite scrape_pinterest_unfold, Hfetch. unfold try_except.
  rewrite (normalize_successful keyword max_items m l w1 Hs Hpins).
  destruct (pin_loop_malformed keyword _ 0 [] w1 Hbad) as (e & w2 & ->).
  now exists w2.
Qed.

Lemma init_cases (w : World) :
  (exists key,
      environ w !! "SCRAPE_CREATORS_KEY" = Some key /\ key <> ""
      /\ PinterestScraper.__init__ w
         = (Ok {| PinterestScraper.api_key := key;
                  PinterestScraper.endpoint :=
                    "https://api.scrapecreators.com/v1/pinterest/search";
                  PinterestScraper.session :=
                    {| PinterestScraper.headers := {[ "x-api-key" := key ]} |} |},
            w))
  \/ ((environ w !! "SCRAPE_CREATORS_KEY" = None
       \/ environ w !! "SCRAPE_CREATORS_KEY" = Some "")
      /\ PinterestScraper.__init__ w
         = (Raise (ValueError PinterestScraper.missing_key_message), w)).
Proof.
  unfold PinterestScraper.__init__, bind, getenv.
  destruct (environ w !! "SCRAPE_CREATORS_KEY") as [key|]; [|right; auto].
  destruct (String.eqb_spec key "") as [->|Hne].
  - right. auto.
  - left. exists key. auto.
Qed.

(** ** Claims *)



(** C7. When the environment holds no key, or an empty one, the constructor
    raises the configuration error at once; when it holds a non-empty key
    the constructor returns the scraper holding that key, also as its
    [x-api-key] header.  Either way the world is left as it was: no request
    is sent. *)
Theorem construction_requires_token (w : World) :
  ((environ w !! "SCRAPE_CREATORS_KEY" = None
    \/ environ w !! "SCRAPE_CREATORS_KEY" = Some "") ->
   PinterestScraper.__init__ w
   = (Raise (ValueError PinterestScraper.missing_key_message), w))
  /\ (forall key : string,
        environ w !! "SCRAPE_CREATORS_KEY" = Some key -> key <> "" ->
        exists self,
          PinterestScraper.__init__ w = (Ok self, w)
          /\ PinterestScraper.api_key self = key
          /\ PinterestScraper.headers (PinterestScraper.session self)
             !! "x-api-key" = Some key)
  /\ sent (snd (PinterestScraper.__init__ w)) = sent w.
Proof.
  destruct (init_cases w) as [(key & Hkey & Hne & Hinit)|(Hnone & Hinit)];
    rewrite Hinit; (split; [|split]); try reflexivity.
  - intros [H|H]; rewrite H in Hkey; congruence.
  - intros key' Hkey' _. rewrite Hkey in Hkey'. injection Hkey' as <-.
    eexists. split; [reflexivity|]. split; [reflexivity|].
    apply lookup_singleton_eq.
  - intros key Hkey Hne. destruct Hnone as [H|H]; rewrite H in Hkey;
      congruence.
Qed.

Lemma construction_requires_token_witness :
  PinterestScraper.__init__ (sample_world ∅ (answer three_pins))
  = (Raise (ValueError PinterestScraper.missing_key_message),
     sample_world ∅ (answer three_pins))
  /\ exists self,
       PinterestScraper.__init__ (sample_world with_key (answer three_pins))
       = (Ok self, sample_world with_key (answer three_pins))
       /\ PinterestScraper.api_key self = sample_key.
Proof.
  split.
  - apply (construction_requires_token (sample_world ∅ (answer three_pins))).
    left. reflexivity.
  - destruct (construction_requires_token
                (sample_world with_key (answer three_pins)))
      as (_ & Hok & _).
    destruct (Hok sample_key eq_refl ltac:(discriminate))
      as (self & Hinit & Hkey & _).
    now exists self.
Defined.

(** An empty key is no key: the constructor raises on it too. *)
Example empty_key_is_missing :
  fst (PinterestScraper.__init__
         (sample_world {[ "SCRAPE_CREATORS_KEY" := "" ]} (answer three_pins)))
  = Raise (ValueError PinterestScraper.missing_key_message).
Proof. reflexivity. Qed.

(** C10. A payload that has no ["success"] key at all is handled exactly as
    one whose indicator is [False]: the method returns the list of the
    fallback generator for the requested count. *)
Theorem missing_indicator_falls_back (self : PinterestScraper.t)
    (keyword : string) (max_items : Z) (w w1 : World)
    (m : gmap string pyval) :
  PinterestScraper.fetch self keyword w = (Ok (PyDict m), w1) ->
  m !! "success" = None ->
  PinterestScraper.scrape_pinterest self keyword max_items w
  = PinterestScraper._generate_mock_items keyword max_items w1
  /\ PinterestScraper.normalize keyword max_items (PyDict m) w1
     = PinterestScraper.normalize keyword max_items
         (PyDict (<["success" := PyBool false]> m)) w1
  /\ exists items w',
       PinterestScraper.scrape_pinterest self keyword max_items w
       = (Ok items, w')
       /\ length items = Z.to_nat max_items.
Proof.
  intros Hfetch Hs.
  assert (Hrun : PinterestScraper.scrape_pinterest self keyword max_items w
                 = PinterestScraper._generate_mock_items keyword max_items w1).
  { rewrite scrape_pinterest_unfold, Hfetch. unfold try_except.
    rewrite normalize_unsuccessful by now rewrite Hs.
    now destruct (generate_mock_items_spec keyword max_items w1)
      as (items & w' & -> & _). }
  split; [exact Hrun|]. split.
  - rewrite !normalize_unsuccessful; [reflexivity| |]; [|now rewrite Hs].
    now rewrite lookup_insert_eq.
  - rewrite Hrun.
    destruct (generate_mock_items_spec keyword max_items w1)
      as (items & w' & Hgen & Hall & _).
    exists items, w'. split; [exact Hgen|].
    rewrite <- (Forall2_length _ _ _ Hall). apply length_seqZ.
Qed.

Lemma missing_indicator_falls_back_witness :
  exists items w',
    PinterestScraper.scrape_pinterest sample_self "boho" 3
      (sample_world with_key (answer no_indicator))
    = (Ok items, w')
    /\ length items = 3%nat.
Proof.
  destruct (missing_indicator_falls_back sample_self "boho" 3
              (sample_world with_key (answer no_indicator)) _ _
              eq_refl eq_refl)
    as (_ & _ & Hex).
  exact Hex.
Defined.

Lemma slice_to_nonneg {A} (l : list A) (n : Z) :
  0 <= n -> slice_to l n = take (Z.to_nat n) l.
Proof. intros Hn. unfold slice_to. destruct (Z.ltb_spec n 0); [lia|reflexivity]. Qed.

(** For a negative bound the slice drops the last [-n] elements. *)
Lemma slice_to_negative {A} (l : list A) (n : Z) :
  n < 0 -> slice_to l n = take (length l - Z.to_nat (- n)) l.
Proof. intros Hn. unfold slice_to. destruct (Z.ltb_spec n 0); [reflexivity|lia]. Qed.




(** C3. Every item of the list the method returns, whichever path built it,
    carries the keyword as its style. *)
Theorem style_is_keyword (self : PinterestScraper.t) (keyword : string)
    (max_items : Z) (w w' : World) (items : list Item.t) :
  PinterestScraper.scrape_pinterest self keyword max_items w = (Ok items, w') ->
  Forall (fun item => Item.style item = PyStr keyword) items.
Proof.
  intros H. apply scrape_pinterest_paths in H as [(w1 & Hgen)|(elems & Hmap)].
  - destruct (generate_mock_items_spec keyword max_items w1)
      as (items' & w'' & Hgen' & Hall & _).
    rewrite Hgen in Hgen'. injection Hgen' as <- _.
    clear Hgen. induction Hall as [|i item is' its Hi _ IH]; constructor.
    + now destruct Hi as (l & s & _ & _ & ->).
    + exact IH.
  - eapply mapped_Forall; [|exact Hmap].
    intros j pin item (w0 & w0' & Hpin).
    now apply map_pin_inv in Hpin as (p & u & c & l & s & _ & _ & _ & _ & _ & _ & ->).
Qed.

Lemma style_is_keyword_witness :
  Forall (fun item => Item.style item = PyStr "boho")
    (match fst (PinterestScraper.scrape_pinterest sample_self "boho" 2
                  (sample_world with_key (answer three_pins))) with
     | Ok items => items
     | Raise _ => []
     end)
  /\ Forall (fun item => Item.style item = PyStr "y2k")
       (match fst (PinterestScraper.scrape_pinterest sample_self "y2k" 2
                     (sample_world with_key (Raise RequestException))) with
        | Ok items => items
        | Raise _ => []
        end).
Proof.
  split.
  - apply (style_is_keyword sample_self "boho" 2
             (sample_world with_key (answer three_pins))
             (snd (PinterestScraper.scrape_pinterest sample_self "boho" 2
                     (sample_world with_key (answer three_pins))))).
    reflexivity.
  - apply (style_is_keyword sample_self "y2k" 2
             (sample_world with_key (Raise RequestException))
             (snd (PinterestScraper.scrape_pinterest sample_self "y2k" 2
                     (sample_world with_key (Raise RequestException))))).
    reflexivity.
Defined.

(** C4. For every keyword and count the fallback generator returns, without
    raising, a list of [count] items (none for a negative count); the item at
    position [j], counted from zero, has the id ["mock_<j+1>"], the image
    reference parameterized by [j+1], and the fixed placeholder source link,
    creator label and timestamp; the ids are pairwise distinct and so are the
    image references. *)
Theorem fallback_items_sequential (keyword : string) (count : Z) (w : World) :
  exists items w',
    PinterestScraper._generate_mock_items keyword count w = (Ok items, w')
    /\ length items = Z.to_nat count
    /\ (forall (j : nat) (item : Item.t),
          items !! j = Some item ->
          Item.id item = PyStr ("mock_" +:+ pretty (Z.of_nat j + 1))
          /\ Item.image_url item
             = PyStr ("https://picsum.photos/300/400?random="
                      +:+ pretty (Z.of_nat j + 1))
          /\ Item.source_url item = PyStr "https://pinterest.com"
          /\ Item.creator item = PyStr "Mock User"
          /\ Item.created_at item = PyStr "2025-01-01T00:00:00Z")
    /\ NoDup (Item.id <$> items)
    /\ NoDup (Item.image_url <$> items).
Proof.
  destruct (generate_mock_items_spec keyword count w)
    as (items & w' & Hrun & Hall & _).
  exists items, w'. split; [exact Hrun|]. split; [|split; [|split]].
  - rewrite <- (Forall2_length _ _ _ Hall). apply length_seqZ.
  - intros j item Hj.
    destruct (Forall2_lookup_r _ _ _ _ _ Hall Hj) as (i & Hi & Hshape).
    apply lookup_seqZ in Hi as [-> _].
    destruct Hshape as (l & s & _ & _ & ->). simpl.
    repeat split; reflexivity.
  - rewrite (mock_items_fmap keyword Item.id
               (fun i => PyStr ("mock_" +:+ pretty (i + 1))) _ _
               ltac:(intros i item (l & s & _ & _ & ->); reflexivity) Hall).
    apply (@NoDup_fmap_2 _ _ _ mock_id_inj), NoDup_seqZ.
  - rewrite (mock_items_fmap keyword Item.image_url
               (fun i => PyStr ("https://picsum.photos/300/400?random="
                                +:+ pretty (i + 1))) _ _
               ltac:(intros i item (l & s & _ & _ & ->); reflexivity) Hall).
    apply (@NoDup_fmap_2 _ _ _ mock_image_inj), NoDup_seqZ.
Qed.

(** C5. Every item of the list the method returns, whichever path built it,
    has an integer in [[50, 500]] as likes and an integer in [[10, 100]] as
    saves. *)
Theorem engagement_ranges (self : PinterestScraper.t) (keyword : string)
    (max_items : Z) (w w' : World) (items : list Item.t) :
  PinterestScraper.scrape_pinterest self keyword max_items w = (Ok items, w') ->
  Forall engagement_in_range items.
Proof.
  intros H. apply scrape_pinterest_paths in H as [(w1 & Hgen)|(elems & Hmap)].
  - destruct (generate_mock_items_spec keyword max_items w1)
      as (items' & w'' & Hgen' & Hall & _).
    rewrite Hgen in Hgen'. injection Hgen' as <- _.
    clear Hgen. induction Hall as [|i item is' its Hi _ IH]; constructor.
    + destruct Hi as (l & s & Hl & Hs & ->). now exists l, s.
    + exact IH.
  - eapply mapped_Forall; [|exact Hmap].
    intros j pin item (w0 & w0' & Hpin).
    apply map_pin_inv in Hpin
      as (p & u & c & l & s & _ & _ & _ & Hl & Hs & _ & ->).
    now exists l, s.
Qed.

Lemma engagement_ranges_witness :
  Forall engagement_in_range
    (match fst (PinterestScraper.scrape_pinterest sample_self "boho" 3
                  (sample_world with_key (answer three_pins))) with
     | Ok items => items
     | Raise _ => []
     end)
  /\ Forall engagement_in_range
       (match fst (PinterestScraper.scrape_pinterest sample_self "boho" 3
                     (sample_world with_key (answer unsuccessful))) with
        | Ok items => items
        | Raise _ => []
        end).
Proof.
  split.
  - apply (engagement_ranges sample_self "boho" 3
             (sample_world with_key (answer three_pins))
             (snd (PinterestScraper.scrape_pinterest sample_self "boho" 3
                     (sample_world with_key (answer three_pins))))).
    reflexivity.
  - apply (engagement_ranges sample_self "boho" 3
             (sample_world with_key (answer unsuccessful))
             (snd (PinterestScraper.scrape_pinterest sample_self "boho" 3
                     (sample_world with_key (answer unsuccessful))))).
    reflexivity.
Defined.




(** A pin with neither title nor description gets the empty title. *)
Example bare_pin_title :
  exists item w',
    PinterestScraper.map_pin "boho" 1 pin_bare
      (sample_world with_key (answer three_pins))
    = (Ok item, w')
    /\ Item.title item = PyStr "" /\ Item.image_url item = PyStr "".
Proof. eexists. eexists. split; [reflexivity|]. now split. Qed.

(** C8, as the code has it.  When the fetch succeeds with a true success
    indicator and the record list is empty, or missing, the method returns
    the empty list and draws nothing: no fallback item is generated. *)
Theorem empty_record_list_yields_no_items (self : PinterestScraper.t)
    (keyword : string) (max_items : Z) (w w1 : World)
    (m : gmap string pyval) :
  PinterestScraper.fetch self keyword w = (Ok (PyDict m), w1) ->
  truthy (default PyNone (m !! "success")) = true ->
  (m !! "pins" = Some (PyList []) \/ m !! "pins" = None) ->
  PinterestScraper.scrape_pinterest self keyword max_items w = (Ok [], w1).
Proof.
  intros Hfetch Hs Hpins.
  rewrite scrape_pinterest_unfold, Hfetch. unfold try_except.
  rewrite (normalize_successful keyword max_items m [] w1 Hs)
    by (destruct Hpins as [->| ->]; reflexivity).
  unfold slice_to. destruct (max_items <? 0); now rewrite take_nil.
Qed.

Lemma empty_record_list_yields_no_items_witness :
  fst (PinterestScraper.scrape_pinterest sample_self "boho" 20
         (sample_world with_key (answer no_pins)))
  = Ok [].
Proof.
  now rewrite (empty_record_list_yields_no_items sample_self "boho" 20
                 (sample_world with_key (answer no_pins)) _ _
                 eq_refl eq_refl (or_introl eq_refl)).
Defined.

(** C8, as stated, fails: for an answer with an empty record list the method
    returns no item, while for an upstream that is down it returns the
    twenty fallback items that were asked for. *)
Lemma empty_record_list_is_not_fallback :
  fst (PinterestScraper.scrape_pinterest sample_self "boho" 20
         (sample_world with_key (answer no_pins)))
  = Ok []
  /\ exists items,
       fst (PinterestScraper.scrape_pinterest sample_self "boho" 20
              (sample_world with_key (Raise RequestException)))
       = Ok items
       /\ length items = 20%nat
       /\ (forall w1,
             fst (PinterestScraper._generate_mock_items "boho" 20 w1)
             <> Ok []).
Proof.
  split; [reflexivity|]. eexists. split; [reflexivity|].
  split; [reflexivity|].
  intros w1 H.
  destruct (generate_mock_items_spec "boho" 20 w1)
    as (items & w' & Hgen & Hall & _).
  rewrite Hgen in H. injection H as ->.
  apply Forall2_length in Hall. discriminate Hall.
Qed.

(** A pin without ["url"] and ["created_at"] gets [None] in both fields. *)
Lemma map_pin_missing_url (keyword : string) (i : Z) (p : gmap string pyval)
    (w w' : World) (item : Item.t) :
  PinterestScraper.map_pin keyword i (PyDict p) w = (Ok item, w') ->
  (p !! "url" = None -> Item.source_url item = PyNone)
  /\ (p !! "created_at" = None -> Item.created_at item = PyNone).
Proof.
  intros H. apply map_pin_inv in H
    as (p' & u & c & l & s & Hp & _ & _ & _ & _ & _ & ->).
  injection Hp as <-. split; intros Hnone; simpl; now rewrite Hnone.
Qed.

(** C9.  The code at a record that has only an id: the entry point returns
    one item whose [source_url] and [created_at] are [None], not strings,
    while its sibling fields [description] and [creator] are defaulted to the
    empty string. *)
Theorem missing_url_and_timestamp_are_None :
  exists item w',
    scrape_pinterest "boho" 1 (sample_world with_key (answer one_bare_pin))
    = (Ok [item], w')
    /\ Item.source_url item = PyNone
    /\ Item.created_at item = PyNone
    /\ Item.description item = PyStr ""
    /\ Item.creator item = PyStr "".
Proof.
  eexists. eexists. split; [reflexivity|]. repeat split.
Qed.

(** * Further properties *)

(** ** What is sent *)

Lemma same_channels_refl (w : World) : same_channels w w.
Proof. now repeat split. Qed.

Lemma same_channels_trans (w1 w2 w3 : World) :
  same_channels w1 w2 -> same_channels w2 w3 -> same_channels w1 w3.
Proof.
  intros (He & Hn & Hr & Hs) (He' & Hn' & Hr' & Hs').
  repeat split; congruence.
Qed.

Lemma quiet_ret {A} (a : A) : quiet (ret a).
Proof. intros w. apply same_channels_refl. Qed.

Lemma quiet_raise {A} (e : exn) : quiet (@raise A e).
Proof. intros w. apply same_channels_refl. Qed.

Lemma quiet_lift {A} (r : result A) : quiet (lift r).
Proof. intros w. apply same_channels_refl. Qed.

Lemma quiet_randint (a b : Z) : quiet (randint a b).
Proof. intros w. now repeat split. Qed.

Lemma quiet_bind {A B} (m : M A) (k : A -> M B) :
  quiet m -> (forall a, quiet (k a)) -> quiet (bind m k).
Proof.
  intros Hm Hk w. unfold bind. specialize (Hm w).
  destruct (m w) as [[a|e] w1]; simpl in Hm.
  - eapply same_channels_trans; [exact Hm | apply Hk].
  - exact Hm.
Qed.

Lemma quiet_try_except {A} (body : M A) (handler : exn -> M A) :
  quiet body -> (forall e, quiet (handler e)) -> quiet (try_except body handler).
Proof.
  intros Hb Hh w. unfold try_except. specialize (Hb w).
  destruct (body w) as [[a|e] w1]; simpl in Hb.
  - exact Hb.
  - eapply same_channels_trans; [exact Hb | apply Hh].
Qed.

Create HintDb quiet.
#[local] Hint Resolve quiet_ret quiet_raise quiet_lift quiet_randint : quiet.

Ltac quiet_steps :=
  repeat (first
            [ apply quiet_bind; [|intros ?]
            | match goal with
              | |- quiet (if ?b then _ else _) => destruct b
              end
            | solve [auto with quiet] ]).

Lemma quiet_map_pin (keyword : string) (i : Z) (pin : pyval) :
  quiet (PinterestScraper.map_pin keyword i pin).
Proof. unfold PinterestScraper.map_pin. quiet_steps. Qed.

Lemma quiet_pin_loop (keyword : string) (pins : list pyval) :
  forall i items, quiet (PinterestScraper.pin_loop keyword i pins items).
Proof.
  induction pins as [|pin rest IH]; intros i items; simpl.
  - apply quiet_ret.
  - apply quiet_bind; [apply quiet_map_pin | intros item; apply IH].
Qed.

Lemma quiet_mock_loop (keyword : string) (indices : list Z) :
  forall items, quiet (PinterestScraper.mock_loop keyword indices items).
Proof.
  induction indices as [|i rest IH]; intros items; simpl.
  - apply quiet_ret.
  - apply quiet_bind; [|intros item; apply IH].
    unfold PinterestScraper.mock_item. quiet_steps.
Qed.

Lemma quiet_generate_mock_items (keyword : string) (count : Z) :
  quiet (PinterestScraper._generate_mock_items keyword count).
Proof. apply quiet_mock_loop. Qed.

Lemma quiet_normalize (keyword : string) (max_items : Z) (data : pyval) :
  quiet (PinterestScraper.normalize keyword max_items data).
Proof.
  unfold PinterestScraper.normalize.
  apply quiet_bind; [apply quiet_lift | intros success].
  destruct (negb (truthy success)); [apply quiet_generate_mock_items|].
  quiet_steps. apply quiet_pin_loop.
Qed.

(** The fetch sends its one request and changes nothing else, whatever comes
    back. *)
Lemma fetch_sends_request (self : PinterestScraper.t) (keyword : string)
    (w : World) :
  snd (PinterestScraper.fetch self keyword w)
  = after_request (request_for self keyword) w.
Proof.
  unfold PinterestScraper.fetch, PinterestScraper.session_get, bind.
  fold (request_for self keyword).
  destruct (network w (request_for self keyword)) as [resp|e]; [|reflexivity].
  unfold PinterestScraper.raise_for_status.
  destruct (_ && _); [reflexivity|]. unfold ret, PinterestScraper.json.
  now destruct (body resp).
Qed.




(** ** What makes the method fall back *)

(** How the answer of the upstream decides the fetch. *)
Lemma fetch_outcome (self : PinterestScraper.t) (keyword : string) (w : World) :
  PinterestScraper.fetch self keyword w
  = (match network w (request_for self keyword) with
     | Raise e => Raise e
     | Ok resp =>
         if (400 <=? status_code resp) && (status_code resp <? 600)
         then Raise (HTTPError (status_code resp))
         else match body resp with
              | Some data => Ok data
              | None => Raise JSONDecodeError
              end
     end,
     after_request (request_for self keyword) w).
Proof.
  unfold PinterestScraper.fetch, PinterestScraper.session_get, bind.
  fold (request_for self keyword).
  destruct (network w (request_for self keyword)) as [resp|e]; [|reflexivity].
  unfold PinterestScraper.raise_for_status.
  destruct (_ && _); [reflexivity|]. unfold ret, PinterestScraper.json.
  now destruct (body resp).
Qed.

(** X3. An answer with a 4xx or 5xx status is never looked into: whatever
    its body, even a payload that reports success with records, the method
    returns the fallback list.  Any other status lets the body through. *)
Theorem error_status_falls_back (self : PinterestScraper.t)
    (keyword : string) (max_items : Z) (w : World) (resp : Response) :
  network w (request_for self keyword) = Ok resp ->
  (400 <= status_code resp < 600 ->
   PinterestScraper.scrape_pinterest self keyword max_items w
   = PinterestScraper._generate_mock_items keyword max_items
       (after_request (request_for self keyword) w))
  /\ (forall data,
        ~ 400 <= status_code resp < 600 -> body resp = Some data ->
        PinterestScraper.fetch self keyword w
        = (Ok data, after_request (request_for self keyword) w)).
Proof.
  intros Hnet. split.
  - intros Hstatus. rewrite scrape_pinterest_unfold, fetch_outcome, Hnet.
    destruct (Z.leb_spec 400 (status_code resp)); [|lia].
    destruct (Z.ltb_spec (status_code resp) 600); [|lia]. reflexivity.
  - intros data Hstatus Hbody. rewrite fetch_outcome, Hnet, Hbody.
    destruct (Z.leb_spec 400 (status_code resp));
      destruct (Z.ltb_spec (status_code resp) 600); try reflexivity; lia.
Qed.

Lemma error_status_falls_back_witness :
  exists items,
    fst (PinterestScraper.scrape_pinterest sample_self "boho" 2
           (sample_world with_key
              (Ok {| status_code := 503; body := Some three_pins |})))
    = Ok items
    /\ Item.id <$> items = [PyStr "mock_1"; PyStr "mock_2"].
Proof.
  destruct (error_status_falls_back sample_self "boho" 2
              (sample_world with_key
                 (Ok {| status_code := 503; body := Some three_pins |}))
              _ eq_refl) as [Herr _].
  rewrite (Herr ltac:(simpl; lia)).
  eexists. split; reflexivity.
Defined.

(** X4. A body that decodes to anything but a dictionary (a list, a string,
    a number, [null]) makes the method return the fallback list. *)
Theorem non_dict_payload_falls_back (self : PinterestScraper.t)
    (keyword : string) (max_items : Z) (w w1 : World) (data : pyval) :
  PinterestScraper.fetch self keyword w = (Ok data, w1) ->
  (forall m, data <> PyDict m) ->
  PinterestScraper.scrape_pinterest self keyword max_items w
  = PinterestScraper._generate_mock_items keyword max_items w1.
Proof.
  intros Hfetch Hdata. rewrite scrape_pinterest_unfold, Hfetch.
  unfold try_except, PinterestScraper.normalize, bind, lift.
  destruct data; try reflexivity. now destruct (Hdata m).
Qed.

Lemma non_dict_payload_falls_back_witness :
  exists items,
    fst (PinterestScraper.scrape_pinterest sample_self "boho" 1
           (sample_world with_key (answer (PyList [pin_full]))))
    = Ok items
    /\ Item.id <$> items = [PyStr "mock_1"].
Proof.
  rewrite (non_dict_payload_falls_back sample_self "boho" 1
             (sample_world with_key (answer (PyList [pin_full]))) _ _
             eq_refl ltac:(discriminate)).
  eexists. split; reflexivity.
Defined.

(** X5. The success indicator is tested for truth, not compared with
    [True]: every false value under ["success"] ([False], [None], [0],
    [0.0], [""], [[]], [{}]) gives the fallback list, and every true value,
    the string ["false"] included, lets the records through. *)
Theorem indicator_is_tested_for_truth (self : PinterestScraper.t)
    (keyword : string) (max_items : Z) (w w1 : World)
    (m : gmap string pyval) (s : pyval) :
  PinterestScraper.fetch self keyword w = (Ok (PyDict m), w1) ->
  m !! "success" = Some s ->
  (truthy s = false ->
   PinterestScraper.scrape_pinterest self keyword max_items w
   = PinterestScraper._generate_mock_items keyword max_items w1)
  /\ (truthy s = true ->
      forall l, m !! "pins" = Some (PyList l) ->
      Forall (fun pin => well_formed_pin pin = true) (slice_to l max_items) ->
      exists items w',
        PinterestScraper.scrape_pinterest self keyword max_items w
        = (Ok items, w')
        /\ mapped keyword 0 (slice_to l max_items) items)
  /\ (truthy s = false <->
      s = PyNone \/ s = PyBool false \/ s = PyInt 0
      \/ (exists sign, s = PyFloat (S754_zero sign))
      \/ s = PyStr "" \/ s = PyList [] \/ s = PyDict ∅).
Proof.
  intros Hfetch Hs. split; [|split].
  - intros Hfalse. rewrite scrape_pinterest_unfold, Hfetch. unfold try_except.
    rewrite normalize_unsuccessful by now rewrite Hs.
    now destruct (generate_mock_items_spec keyword max_items w1)
      as (items & w' & -> & _).
  - intros Htrue l Hpins Hwf.
    destruct (pin_loop_total keyword (slice_to l max_items) 0 [] w1 Hwf)
      as (items & w' & Hloop & Hmapped & _).
    exists items, w'. split; [|exact Hmapped].
    rewrite scrape_pinterest_unfold, Hfetch. unfold try_except.
    rewrite (normalize_successful keyword max_items m l w1)
      by (rewrite ?Hs, ?Hpins; auto).
    now rewrite Hloop.
  - clear. split.
    + destruct s as [|b|z|f|str|l|d]; simpl; intros H.
      * now left.
      * subst b. right. now left.
      * apply negb_false_iff, Z.eqb_eq in H. subst z. right. right. now left.
      * destruct f; try discriminate. right. right. right. left. now eexists.
      * apply negb_false_iff, String.eqb_eq in H. subst str.
        do 4 right. now left.
      * destruct l; [|discriminate]. do 5 right. now left.
      * destruct (map_to_list d) eqn:Hd; [|discriminate].
        apply map_to_list_empty_iff in Hd. subst d. do 6 right. reflexivity.
    + intros [->|[->|[->|[(sign & ->)|[->|[->| ->]]]]]]; reflexivity.
Qed.

Lemma indicator_is_tested_for_truth_witness :
  exists items w',
    PinterestScraper.scrape_pinterest sample_self "boho" 5
      (sample_world with_key (answer string_indicator))
    = (Ok items, w')
    /\ Item.id <$> items = [PyStr "p2"].
Proof.
  destruct (indicator_is_tested_for_truth sample_self "boho" 5
              (sample_world with_key (answer string_indicator)) _ _
              (PyStr "false") eq_refl eq_refl) as (_ & Htrue & _).
  destruct (Htrue eq_refl [pin_bare] eq_refl ltac:(repeat constructor))
    as (items & w' & Hrun & Hmapped).
  exists items, w'. split; [exact Hrun|].
  vm_compute in Hrun. now injection Hrun as <- _.
Defined.

(** X6. The records are all or nothing: one record of the slice that the
    loop body cannot map (its ["images"] is [null], its ["pinner"] is not a
    dictionary, it is not a dictionary itself) discards the items already
    built and the method returns the fallback list. *)
Theorem one_bad_record_discards_all (self : PinterestScraper.t)
    (keyword : string) (max_items : Z) (w w1 : World)
    (m : gmap string pyval) (l : list pyval) :
  PinterestScraper.fetch self keyword w = (Ok (PyDict m), w1) ->
  truthy (default PyNone (m !! "success")) = true ->
  m !! "pins" = Some (PyList l) ->
  Exists (fun pin => well_formed_pin pin = false) (slice_to l max_items) ->
  exists w2 items w',
    PinterestScraper.scrape_pinterest self keyword max_items w
    = (Ok items, w')
    /\ PinterestScraper._generate_mock_items keyword max_items w2
       = (Ok items, w')
    /\ Forall2 (is_mock_item keyword) (range max_items) items
    /\ length items = Z.to_nat max_items.
Proof.
  intros Hfetch Hs Hpins Hbad.
  destruct (malformed_record_falls_back self keyword max_items w w1 m l
              Hfetch Hs ltac:(now rewrite Hpins) Hbad) as (w2 & Hrun).
  destruct (generate_mock_items_spec keyword max_items w2)
    as (items & w' & Hgen & Hall & _).
  exists w2, items, w'. rewrite Hrun. repeat split; try assumption.
  rewrite <- (Forall2_length _ _ _ Hall). apply length_seqZ.
Qed.

Lemma one_bad_record_discards_all_witness :
  exists items w',
    PinterestScraper.scrape_pinterest sample_self "boho" 3
      (sample_world with_key (answer one_bad_pin))
    = (Ok items, w')
    /\ Item.id <$> items = [PyStr "mock_1"; PyStr "mock_2"; PyStr "mock_3"].
Proof.
  destruct (one_bad_record_discards_all sample_self "boho" 3
              (sample_world with_key (answer one_bad_pin)) _ _
              [pin_full; pin_null_images; pin_bare]
              eq_refl eq_refl eq_refl
              ltac:(apply Exists_cons_tl, Exists_cons_hd; reflexivity))
    as (w2 & items & w' & Hrun & _).
  exists items, w'. split; [exact Hrun|].
  vm_compute in Hrun. now injection Hrun as <- _.
Defined.

(** ** The records of the success path *)

Lemma slice_to_lookup {A} (l : list A) (n : Z) (j : nat) (x : A) :
  slice_to l n !! j = Some x -> l !! j = Some x.
Proof.
  unfold slice_to. destruct (n <? 0); intros H;
    apply lookup_take_Some in H; tauto.
Qed.

Lemma sliced_elems_bound (pins sl : pyval) (elems : list pyval) (n : Z) :
  0 <= n ->
  py_slice_to pins n = Ok sl -> py_iter sl = Ok elems ->
  (length elems <= Z.to_nat n)%nat.
Proof.
  intros Hn Hsl Hit. destruct pins; try discriminate; simpl in Hsl;
    injection Hsl as <-; simpl in Hit; injection Hit as <-.
  - rewrite length_map, list_ascii_of_string_of_list_ascii,
      slice_to_nonneg, length_take by exact Hn. lia.
  - rewrite slice_to_nonneg, length_take by exact Hn. lia.
Qed.

(** As [scrape_pinterest_paths], with where the mapped elements come from. *)
Lemma scrape_pinterest_paths_sliced (self : PinterestScraper.t)
    (keyword : string) (max_items : Z) (w w' : World) (items : list Item.t) :
  PinterestScraper.scrape_pinterest self keyword max_items w = (Ok items, w') ->
  (exists w1,
      PinterestScraper._generate_mock_items keyword max_items w1
      = (Ok items, w'))
  \/ (exists pins sl elems,
         py_slice_to pins max_items = Ok sl /\ py_iter sl = Ok elems
         /\ mapped keyword 0 elems items).
Proof.
  rewrite scrape_pinterest_unfold.
  destruct (PinterestScraper.fetch self keyword w) as [[data|e] w1];
    [|intros H; left; now exists w1].
  unfold try_except.
  destruct (PinterestScraper.normalize keyword max_items data w1)
    as [[its|e] w2] eqn:Hn; [|intros H; left; now exists w2].
  intros H. injection H as -> ->.
  unfold PinterestScraper.normalize in Hn.
  apply bind_lift_inv_Ok in Hn as (success & _ & Hn).
  destruct (truthy success); simpl in Hn; [|left; now exists w1].
  apply bind_lift_inv_Ok in Hn as (pins & _ & Hn).
  apply bind_lift_inv_Ok in Hn as (sl & Hsl & Hn).
  apply bind_lift_inv_Ok in Hn as (elems & Hit & Hn).
  apply pin_loop_inv in Hn as (new & -> & Hnew).
  right. now exists pins, sl, elems.
Qed.

(** X7. For a bound [n >= 0] the method never returns more than [n] items,
    whatever the upstream answers and whatever shape the payload has. *)
Theorem never_more_than_asked (self : PinterestScraper.t) (keyword : string)
    (n : Z) (w : World) :
  0 <= n ->
  exists items w',
    PinterestScraper.scrape_pinterest self keyword n w = (Ok items, w')
    /\ Z.of_nat (length items) <= n.
Proof.
  intros Hn.
  destruct (scrape_pinterest_total self keyword n w) as (items & w' & Hrun).
  exists items, w'. split; [exact Hrun|].
  apply scrape_pinterest_paths_sliced in Hrun
    as [(w1 & Hgen)|(pins & sl & elems & Hsl & Hit & Hmapped)].
  - destruct (generate_mock_items_spec keyword n w1)
      as (items' & w'' & Hgen' & Hall & _).
    rewrite Hgen in Hgen'. injection Hgen' as <- _.
    rewrite <- (Forall2_length _ _ _ Hall). unfold range.
    rewrite length_seqZ. lia.
  - rewrite (mapped_length _ _ _ _ Hmapped).
    pose proof (sliced_elems_bound _ _ _ _ Hn Hsl Hit). lia.
Qed.

Lemma never_more_than_asked_witness :
  exists items w',
    PinterestScraper.scrape_pinterest sample_self "boho" 2
      (sample_world with_key (answer three_pins))
    = (Ok items, w')
    /\ Z.of_nat (length items) <= 2.
Proof.
  exact (never_more_than_asked sample_self "boho" 2
           (sample_world with_key (answer three_pins)) ltac:(lia)).
Defined.

Lemma success_path_run (self : PinterestScraper.t) (keyword : string)
    (n : Z) (w w1 : World) (m : gmap string pyval) (l : list pyval) :
  PinterestScraper.fetch self keyword w = (Ok (PyDict m), w1) ->
  truthy (default PyNone (m !! "success")) = true ->
  m !! "pins" = Some (PyList l) ->
  Forall (fun pin => well_formed_pin pin = true) (slice_to l n) ->
  exists items w',
    PinterestScraper.scrape_pinterest self keyword n w = (Ok items, w')
    /\ mapped keyword 0 (slice_to l n) items.
Proof.
  intros Hfetch Hs Hpins Hwf.
  destruct (pin_loop_total keyword (slice_to l n) 0 [] w1 Hwf)
    as (items & w' & Hloop & Hmapped & _).
  exists items, w'. split; [|exact Hmapped].
  rewrite scrape_pinterest_unfold, Hfetch. unfold try_except.
  rewrite (normalize_successful keyword n m l w1 Hs) by now rewrite Hpins.
  now rewrite Hloop.
Qed.

Lemma pin_id_inj : Inj (=) (=) (fun j : nat => PyStr ("pin_" +:+ pretty (Z.of_nat j + 1))).
Proof.
  intros i j H. injection H as H. simpl in H.
  apply pretty_Z_inj in H. lia.
Qed.

(** X8. On the success path the id of the item at position [j] is the id the
    provider gave the record at position [j], of whatever type, and
    ["pin_<j+1>"] when the record has none; when no record of the slice has
    an id, the ids of the result are pairwise distinct. *)
Theorem ids_from_provider_or_position (self : PinterestScraper.t)
    (keyword : string) (n : Z) (w w1 : World) (m : gmap string pyval)
    (l : list pyval) :
  PinterestScraper.fetch self keyword w = (Ok (PyDict m), w1) ->
  truthy (default PyNone (m !! "success")) = true ->
  m !! "pins" = Some (PyList l) ->
  Forall (fun pin => well_formed_pin pin = true) (slice_to l n) ->
  exists items w',
    PinterestScraper.scrape_pinterest self keyword n w = (Ok items, w')
    /\ (forall (j : nat) (item : Item.t),
          items !! j = Some item ->
          exists p, l !! j = Some (PyDict p)
                    /\ Item.id item
                       = default (PyStr ("pin_" +:+ pretty (Z.of_nat j + 1)))
                                 (p !! "id"))
    /\ (Forall (fun pin => has_id pin = false) (slice_to l n) ->
        NoDup (Item.id <$> items)).
Proof.
  intros Hfetch Hs Hpins Hwf.
  destruct (success_path_run self keyword n w w1 m l Hfetch Hs Hpins Hwf)
    as (items & w' & Hrun & Hmapped).
  exists items, w'. split; [exact Hrun|].
  assert (Hid : forall (j : nat) (item : Item.t),
             items !! j = Some item ->
             exists p, slice_to l n !! j = Some (PyDict p)
                       /\ Item.id item
                          = default (PyStr ("pin_" +:+ pretty (Z.of_nat j + 1)))
                                    (p !! "id")).
  { intros j item Hj.
    destruct (mapped_lookup _ _ _ _ Hmapped j item Hj)
      as (pin & Hpin & (w0 & w0' & Hmap)).
    apply map_pin_inv in Hmap
      as (p & u & c & lk & sv & -> & _ & _ & _ & _ & _ & ->).
    exists p. split; [exact Hpin|]. reflexivity. }
  split.
  - intros j item Hj. destruct (Hid j item Hj) as (p & Hp & Hidj).
    exists p. split; [now apply slice_to_lookup in Hp | exact Hidj].
  - intros Hnone. apply NoDup_alt. intros i j x Hi Hj.
    apply list_lookup_fmap_Some in Hi as (iti & -> & Hiti).
    apply list_lookup_fmap_Some in Hj as (itj & Heq & Hitj).
    destruct (Hid i iti Hiti) as (pi & Hpi & Hidi).
    destruct (Hid j itj Hitj) as (pj & Hpj & Hidj).
    pose proof (proj1 (Forall_lookup _ _) Hnone _ _ Hpi) as Hni.
    pose proof (proj1 (Forall_lookup _ _) Hnone _ _ Hpj) as Hnj.
    simpl in Hni, Hnj.
    apply bool_decide_eq_false in Hni, Hnj.
    destruct (pi !! "id") eqn:Ei; [destruct Hni; eauto|].
    destruct (pj !! "id") eqn:Ej; [destruct Hnj; eauto|].
    simpl in Hidi, Hidj. rewrite Hidi, Hidj in Heq.
    now apply pin_id_inj in Heq.
Qed.

Lemma ids_from_provider_or_position_witness :
  exists items w',
    PinterestScraper.scrape_pinterest sample_self "boho" 3
      (sample_world with_key (answer no_ids))
    = (Ok items, w')
    /\ NoDup (Item.id <$> items)
    /\ Item.id <$> items = [PyStr "pin_1"; PyStr "pin_2"; PyStr "pin_3"].
Proof.
  destruct (ids_from_provider_or_position sample_self "boho" 3
              (sample_world with_key (answer no_ids)) _ _
              [pin_no_id; pin_empty_title; pin_no_id]
              eq_refl eq_refl eq_refl ltac:(repeat constructor))
    as (items & w' & Hrun & _ & Hnodup).
  exists items, w'. split; [exact Hrun|].
  split; [apply Hnodup; repeat constructor|].
  vm_compute in Hrun. now injection Hrun as <- _.
Defined.

(** X9. The provider's values are passed through unchanged and unchecked: a
    mapped pin's description, link and timestamp are whatever the record
    holds under ["description"], ["url"] and ["created_at"], of whatever
    type; an absent description becomes the empty string; the creator is the
    ["full_name"] of the ["pinner"] dictionary, and the empty string when
    the record has no pinner or the pinner has no full name. *)
Theorem provider_values_pass_through (keyword : string) (i : Z)
    (p : gmap string pyval) (w w' : World) (item : Item.t) :
  PinterestScraper.map_pin keyword i (PyDict p) w = (Ok item, w') ->
  Item.description item = default (PyStr "") (p !! "description")
  /\ (forall v, p !! "url" = Some v -> Item.source_url item = v)
  /\ (forall v, p !! "created_at" = Some v -> Item.created_at item = v)
  /\ (p !! "pinner" = None -> Item.creator item = PyStr "")
  /\ (forall q, p !! "pinner" = Some (PyDict q) ->
                Item.creator item = default (PyStr "") (q !! "full_name"))
  /\ w' = after_draw (after_draw w).
Proof.
  intros H. apply map_pin_inv in H
    as (p' & u & c & l & s & Hp & _ & Hc & _ & _ & Hw & ->).
  injection Hp as <-. simpl.
  split; [reflexivity|]. split; [now intros v ->|]. split; [now intros v ->|].
  split; [|split; [|exact Hw]].
  - intros Hnone. rewrite Hnone in Hc. unfold default in Hc.
    cbn [from_option id py_get] in Hc. rewrite lookup_empty in Hc.
    now injection Hc as <-.
  - intros q Hq. rewrite Hq in Hc. unfold default at 1 in Hc.
    cbn [from_option id py_get] in Hc. now injection Hc as <-.
Qed.

Lemma provider_values_pass_through_witness :
  exists item w',
    PinterestScraper.map_pin "boho" 0 pin_full
      (sample_world with_key (answer three_pins))
    = (Ok item, w')
    /\ Item.source_url item = PyStr "https://pinterest.com/pin/p1"
    /\ Item.creator item = PyStr "Ana".
Proof.
  eexists. eexists. split; [reflexivity|].
  destruct (provider_values_pass_through "boho" 0 full_fields
              (sample_world with_key (answer three_pins)) _ _ eq_refl)
    as (_ & Hurl & _ & _ & Hcreator & _).
  split.
  - exact (Hurl _ eq_refl).
  - exact (Hcreator _ eq_refl).
Defined.

(** X10. A negative bound does not mean no items: with [n < 0] the success
    path maps all records but the last [-n], in provider order (none when
    the list has no more than [-n] records). *)
Theorem negative_bound_drops_last (self : PinterestScraper.t)
    (keyword : string) (n : Z) (w w1 : World) (m : gmap string pyval)
    (l : list pyval) :
  n < 0 ->
  PinterestScraper.fetch self keyword w = (Ok (PyDict m), w1) ->
  truthy (default PyNone (m !! "success")) = true ->
  m !! "pins" = Some (PyList l) ->
  Forall (fun pin => well_formed_pin pin = true)
         (take (length l - Z.to_nat (- n)) l) ->
  exists items w',
    PinterestScraper.scrape_pinterest self keyword n w = (Ok items, w')
    /\ length items = (length l - Z.to_nat (- n))%nat
    /\ forall (j : nat) (item : Item.t),
         items !! j = Some item ->
         exists pin, l !! j = Some pin
                     /\ maps_to keyword (Z.of_nat j) pin item.
Proof.
  intros Hn Hfetch Hs Hpins Hwf.
  rewrite <- (slice_to_negative l n Hn) in Hwf.
  destruct (success_path_run self keyword n w w1 m l Hfetch Hs Hpins Hwf)
    as (items & w' & Hrun & Hmapped).
  exists items, w'. split; [exact Hrun|]. split.
  - rewrite (mapped_length _ _ _ _ Hmapped), slice_to_negative, length_take
      by exact Hn. lia.
  - intros j item Hj.
    destruct (mapped_lookup _ _ _ _ Hmapped j item Hj) as (pin & Hpin & Hmap).
    exists pin. split; [now apply slice_to_lookup in Hpin | exact Hmap].
Qed.

Lemma negative_bound_drops_last_witness :
  exists items w',
    PinterestScraper.scrape_pinterest sample_self "boho" (-2)
      (sample_world with_key (answer three_pins))
    = (Ok items, w')
    /\ length items = 1%nat.
Proof.
  destruct (negative_bound_drops_last sample_self "boho" (-2)
              (sample_world with_key (answer three_pins)) _ _
              [pin_full; pin_bare; pin_empty_title]
              ltac:(lia) eq_refl eq_refl eq_refl ltac:(repeat constructor))
    as (items & w' & Hrun & Hlen & _).
  now exists items, w'.
Defined.

(** X11. A ["pins"] entry that is not a list never yields a real item: the
    method returns the fallback list, except for a string whose slice is
    empty (the empty string, a bound of zero), for which it returns the
    empty list. *)
Theorem non_list_records_yield_no_item (self : PinterestScraper.t)
    (keyword : string) (n : Z) (w w1 : World) (m : gmap string pyval)
    (v : pyval) :
  PinterestScraper.fetch self keyword w = (Ok (PyDict m), w1) ->
  truthy (default PyNone (m !! "success")) = true ->
  m !! "pins" = Some v ->
  (forall l, v <> PyList l) ->
  PinterestScraper.scrape_pinterest self keyword n w
  = PinterestScraper._generate_mock_items keyword n w1
  \/ (exists s, v = PyStr s
                /\ slice_to (list_ascii_of_string s) n = []
                /\ PinterestScraper.scrape_pinterest self keyword n w
                   = (Ok [], w1)).
Proof.
  intros Hfetch Hs Hpins Hv.
  rewrite scrape_pinterest_unfold, Hfetch.
  unfold try_except, PinterestScraper.normalize, bind, lift.
  cbn [py_get]. rewrite Hs, Hpins. cbn [negb default from_option id].
  destruct v as [|b|z|f|s|l|d]; try (left; reflexivity).
  - cbn [py_slice_to py_iter].
    rewrite list_ascii_of_string_of_list_ascii.
    destruct (slice_to (list_ascii_of_string s) n) as [|c cs] eqn:Hsl.
    + right. exists s. now repeat split.
    + left. reflexivity.
  - now destruct (Hv l).
Qed.

Lemma non_list_records_yield_no_item_witness :
  exists items,
    fst (PinterestScraper.scrape_pinterest sample_self "boho" 2
           (sample_world with_key (answer string_pins)))
    = Ok items
    /\ Item.id <$> items = [PyStr "mock_1"; PyStr "mock_2"].
Proof.
  destruct (non_list_records_yield_no_item sample_self "boho" 2
              (sample_world with_key (answer string_pins)) _ _ (PyStr "oops")
              eq_refl eq_refl eq_refl ltac:(discriminate))
    as [Hrun|(s & Hv & Hsl & _)].
  - rewrite Hrun. eexists. split; reflexivity.
  - exfalso. injection Hv as <-. discriminate Hsl.
Defined.


(** ** [core/data.py] *)

(** X13. [total_cost] reads two attributes the dataclass does not declare:
    on every instance the constructor builds it raises [AttributeError],
    also after [quantity_on_hand] alone is set, and only once both
    attributes are set does it give their product. *)
Theorem total_cost_needs_undeclared_attributes
    (mul : pyval -> pyval -> result pyval) (name category size : pyval) :
  ClothingItem.total_cost mul (ClothingItem.__init__ name category size)
  = Raise AttributeError
  /\ (forall q,
        ClothingItem.total_cost mul
          (ClothingItem.setattr (ClothingItem.__init__ name category size)
             "quantity_on_hand" q)
        = Raise AttributeError)
  /\ (forall p q,
        ClothingItem.total_cost mul
          (ClothingItem.setattr
             (ClothingItem.setattr (ClothingItem.__init__ name category size)
                "unit_price" p)
             "quantity_on_hand" q)
        = mul p q).
Proof. repeat split. Qed.

(** ** [main.py]: the feedback route *)

Lemma check_required_cases (payload : gmap string pyval) :
  (is_Some (payload !! "user_id") /\ is_Some (payload !! "item_id")
   /\ is_Some (payload !! "feedback_type")
   /\ check_required ["user_id"; "item_id"; "feedback_type"] payload
      = Return tt)
  \/ (exists field,
         In field ["user_id"; "item_id"; "feedback_type"]
         /\ payload !! field = None
         /\ check_required ["user_id"; "item_id"; "feedback_type"] payload
            = Raised (HTTPException 400
                        ("Missing required field: " +:+ field))).
Proof.
  unfold check_required.
  destruct (payload !! "user_id") as [u|] eqn:Hu.
  2:{ right. exists "user_id". rewrite Hu.
      rewrite bool_decide_eq_false_2 by (now intros [? ?]).
      repeat split; simpl; auto. }
  rewrite bool_decide_eq_true_2 by eauto.
  destruct (payload !! "item_id") as [i|] eqn:Hi.
  2:{ right. exists "item_id". rewrite Hi.
      rewrite bool_decide_eq_false_2 by (now intros [? ?]).
      repeat split; simpl; auto. }
  rewrite bool_decide_eq_true_2 by eauto.
  destruct (payload !! "feedback_type") as [t|] eqn:Ht.
  2:{ right. exists "feedback_type". rewrite Ht.
      rewrite bool_decide_eq_false_2 by (now intros [? ?]).
      repeat split; simpl; auto. }
  rewrite bool_decide_eq_true_2 by eauto.
  left. repeat split; eauto.
Qed.

(** X14. A payload that lacks a required field is never answered with the
    status 400 the route raises for it: that exception is caught by the
    route's own handler, logged as ["feedback_error"], and replaced by an
    [HTTPException] of status 500 (or by whatever the logging raises);
    [record_feedback] is not consulted. *)
Theorem missing_field_answers_500 {S : Type} (c : Collaborators S)
    (payload : gmap string pyval) (st : S) :
  (payload !! "user_id" = None \/ payload !! "item_id" = None
   \/ payload !! "feedback_type" = None) ->
  exists field,
    In field ["user_id"; "item_id"; "feedback_type"]
    /\ payload !! field = None
    /\ (forall c' : Collaborators S,
          log_activity c' = log_activity c -> str c' = str c ->
          feedback_route c' payload st
          = match log_activity c "feedback_error"
                    {[ "error" :=
                         PyStr (str c (HTTPException 400
                                  ("Missing required field: " +:+ field))) ]}
                    st with
            | (Raised e', st2) => (Raised e', st2)
            | (Return _, st2) =>
                (Raised
                   (HTTPException 500
                      ("Error recording feedback: "
                       +:+ str c (HTTPException 400
                                    ("Missing required field: " +:+ field)))),
                 st2)
            end).
Proof.
  intros Hmissing.
  destruct (check_required_cases payload)
    as [(Hu & Hi & Ht & _)|(field & Hin & Hnone & Hcheck)].
  - destruct Hmissing as [H|[H|H]];
      [rewrite H in Hu; now destruct Hu
      |rewrite H in Hi; now destruct Hi
      |rewrite H in Ht; now destruct Ht].
  - exists field. split; [exact Hin|]. split; [exact Hnone|].
    intros c' Hlog Hstr.
    unfold feedback_route, feedback_try. rewrite Hcheck, Hlog, Hstr.
    reflexivity.
Qed.

Lemma missing_field_answers_500_witness :
  feedback_route sample_collaborators partial_feedback []
  = (Raised
       (HTTPException 500
          "Error recording feedback: 400: Missing required field: item_id"),
     ["feedback_error"]).
Proof.
  destruct (missing_field_answers_500 sample_collaborators partial_feedback []
              (or_intror (or_introl eq_refl)))
    as (field & Hin & Hnone & Hroute).
  rewrite (Hroute sample_collaborators eq_refl eq_refl).
  destruct Hin as [<-|[<-|[<-|[]]]]; try discriminate Hnone.
  reflexivity.
Defined.

(** X15. The route returns only for a payload that has the three required
    fields and that [record_feedback] accepted: what it returns is the
    message with the result of [record_feedback] under ["feedback"], after
    the activity ["feedback_recorded"] was logged. *)
Theorem feedback_returns_only_when_recorded {S : Type} (c : Collaborators S)
    (payload : gmap string pyval) (st st' : S) (v : pyval) :
  feedback_route c payload st = (Return v, st') ->
  is_Some (payload !! "user_id") /\ is_Some (payload !! "item_id")
  /\ is_Some (payload !! "feedback_type")
  /\ exists fb payload1 st1 user_id item_id feedback_type,
       record_feedback c payload st = (Return (fb, payload1), st1)
       /\ payload1 !! "user_id" = Some user_id
       /\ payload1 !! "item_id" = Some item_id
       /\ payload1 !! "feedback_type" = Some feedback_type
       /\ log_activity c "feedback_recorded"
            {[ "user_id" := user_id; "item_id" := item_id;
               "feedback_type" := feedback_type ]} st1
          = (Return tt, st')
       /\ v = PyDict {[ "message" := PyStr "Feedback recorded successfully";
                        "feedback" := fb ]}.
Proof.
  unfold feedback_route. intros H.
  destruct (feedback_try c payload st) as [[v0|e] st0] eqn:Htry.
  2:{ destruct (log_activity c "feedback_error" _ st0) as [[?|?] ?];
        discriminate H. }
  injection H as -> ->. unfold feedback_try in Htry.
  destruct (check_required_cases payload)
    as [(Hu & Hi & Ht & Hcheck)|(field & _ & _ & Hcheck)];
    rewrite Hcheck in Htry; [|discriminate Htry].
  repeat (split; [assumption|]).
  destruct (record_feedback c payload st) as [[[fb payload1]|e] st1] eqn:Hrec;
    [|discriminate Htry].
  unfold subscript in Htry.
  destruct (payload1 !! "user_id") as [user_id|] eqn:Hu1;
    [|discriminate Htry].
  destruct (payload1 !! "item_id") as [item_id|] eqn:Hi1;
    [|discriminate Htry].
  destruct (payload1 !! "feedback_type") as [feedback_type|] eqn:Ht1;
    [|discriminate Htry].
  destruct (log_activity c "feedback_recorded" _ st1) as [[[]|e] st2] eqn:Hlog;
    [|discriminate Htry].
  injection Htry as <- <-.
  exists fb, payload1, st1, user_id, item_id, feedback_type.
  now repeat split.
Qed.

Lemma feedback_returns_only_when_recorded_witness :
  is_Some (full_feedback !! "item_id")
  /\ feedback_route sample_collaborators full_feedback []
     = (Return (PyDict {[ "message" := PyStr "Feedback recorded successfully";
                          "feedback" := PyDict full_feedback ]}),
        ["feedback_recorded"]).
Proof.
  split.
  - exact (proj1 (proj2 (feedback_returns_only_when_recorded
                           sample_collaborators full_feedback [] _ _
                           eq_refl))).
  - reflexivity.
Defined.

(** ** What depends on the random source *)

Lemma maps_to_without_engagement keyword i pin item1 item2 :
  maps_to keyword i pin item1 -> maps_to keyword i pin item2 ->
  without_engagement item1 = without_engagement item2.
Proof.
  intros (w1 & w1' & H1) (w2 & w2' & H2).
  apply map_pin_inv in H1
    as (p1 & u1 & c1 & l1 & s1 & -> & Hu1 & Hc1 & _ & _ & _ & ->).
  apply map_pin_inv in H2
    as (p2 & u2 & c2 & l2 & s2 & Hp & Hu2 & Hc2 & _ & _ & _ & ->).
  injection Hp as <-.
  rewrite Hu1 in Hu2. injection Hu2 as <-.
  rewrite Hc1 in Hc2. injection Hc2 as <-.
  reflexivity.
Qed.

Lemma mapped_without_engagement keyword i pins items1 :
  mapped keyword i pins items1 ->
  forall items2,
    mapped keyword i pins items2 ->
    without_engagement <$> items1 = without_engagement <$> items2.
Proof.
  induction 1 as [|i pin item pins items Hhd _ IH]; intros items2 H2;
    inversion H2; subst.
  - reflexivity.
  - rewrite !fmap_cons. f_equal.
    + eapply maps_to_without_engagement; eassumption.
    + now apply IH.
Qed.

Lemma mock_without_engagement keyword indices items1 :
  Forall2 (is_mock_item keyword) indices items1 ->
  forall items2,
    Forall2 (is_mock_item keyword) indices items2 ->
    without_engagement <$> items1 = without_engagement <$> items2.
Proof.
  induction 1 as [|i item is' its Hi _ IH]; intros items2 H2;
    inversion H2 as [|? item2 ? its2 Hi2 Hrest2]; subst.
  - reflexivity.
  - rewrite !fmap_cons. f_equal; [|now apply IH].
    destruct Hi as (l & s & _ & _ & ->).
    destruct Hi2 as (l2 & s2 & _ & _ & ->). reflexivity.
Qed.

Lemma generate_mock_items_without_engagement keyword count w1 w2 :
  without_engagement
    <$> match fst (PinterestScraper._generate_mock_items keyword count w1) with
        | Ok items => items
        | Raise _ => []
        end
  = without_engagement
      <$> match fst (PinterestScraper._generate_mock_items keyword count w2) with
          | Ok items => items
          | Raise _ => []
          end.
Proof.
  destruct (generate_mock_items_spec keyword count w1)
    as (items1 & w1' & -> & Hall1 & _).
  destruct (generate_mock_items_spec keyword count w2)
    as (items2 & w2' & -> & Hall2 & _).
  simpl. eapply mock_without_engagement; eassumption.
Qed.

Lemma pin_loop_without_engagement keyword pins w1 w2 :
  match PinterestScraper.pin_loop keyword 0 pins [] w1,
        PinterestScraper.pin_loop keyword 0 pins [] w2 with
  | (Ok items1, _), (Ok items2, _) =>
      without_engagement <$> items1 = without_engagement <$> items2
  | (Raise _, _), (Raise _, _) => True
  | _, _ => False
  end.
Proof.
  destruct (Forall_Exists_dec (fun pin => well_formed_pin pin = true)
              (fun pin => well_formed_pin pin = false)
              (fun pin =>
                 match well_formed_pin pin as b
                       return {b = true} + {b = false} with
                 | true => left eq_refl
                 | false => right eq_refl
                 end) pins)
    as [Hwf|Hbad'].
  - destruct (pin_loop_total keyword pins 0 [] w1 Hwf)
      as (items1 & w1' & -> & Hm1 & _).
    destruct (pin_loop_total keyword pins 0 [] w2 Hwf)
      as (items2 & w2' & -> & Hm2 & _).
    simpl. eapply mapped_without_engagement; eassumption.
  - destruct (pin_loop_malformed keyword pins 0 [] w1 Hbad') as (e1 & w1' & ->).
    destruct (pin_loop_malformed keyword pins 0 [] w2 Hbad') as (e2 & w2' & ->).
    exact I.
Qed.

Lemma normalize_without_engagement keyword max_items data w1 w2 :
  without_engagement
    <$> match fst (try_except
                     (PinterestScraper.normalize keyword max_items data)
                     (fun _ =>
                        PinterestScraper._generate_mock_items keyword max_items)
                     w1) with
        | Ok items => items
        | Raise _ => []
        end
  = without_engagement
      <$> match fst (try_except
                       (PinterestScraper.normalize keyword max_items data)
                       (fun _ =>
                          PinterestScraper._generate_mock_items keyword
                            max_items)
                       w2) with
          | Ok items => items
          | Raise _ => []
          end.
Proof.
  unfold try_except, PinterestScraper.normalize, bind, lift.
  destruct (py_get data "success" PyNone) as [success|e];
    [|apply generate_mock_items_without_engagement].
  destruct (truthy success); cbn [negb].
  2:{ pose proof (generate_mock_items_without_engagement keyword max_items
                    w1 w2) as H.
      destruct (generate_mock_items_spec keyword max_items w1)
        as (items1 & w1' & H1 & _).
      destruct (generate_mock_items_spec keyword max_items w2)
        as (items2 & w2' & H2 & _).
      rewrite H1, H2 in *. exact H. }
  destruct (py_get data "pins" (PyList [])) as [pins|e];
    [|apply generate_mock_items_without_engagement].
  destruct (py_slice_to pins max_items) as [sl|e];
    [|apply generate_mock_items_without_engagement].
  destruct (py_iter sl) as [elems|e];
    [|apply generate_mock_items_without_engagement].
  pose proof (pin_loop_without_engagement keyword elems w1 w2) as Hloop.
  destruct (PinterestScraper.pin_loop keyword 0 elems [] w1) as [[its1|e1] w1'];
    destruct (PinterestScraper.pin_loop keyword 0 elems [] w2)
      as [[its2|e2] w2']; try contradiction.
  - exact Hloop.
  - apply generate_mock_items_without_engagement.
Qed.

(** X16. Likes and saves are the only fields that depend on the random
    source: two calls with the same keyword and bound against upstreams that
    answer alike return lists that agree, item by item, in every other
    field, whatever the state of the generator and whatever was drawn
    before. *)
Theorem only_engagement_is_random (self : PinterestScraper.t)
    (keyword : string) (max_items : Z) (w1 w2 : World)
    (items1 items2 : list Item.t) (w1' w2' : World) :
  network w1 (request_for self keyword) = network w2 (request_for self keyword) ->
  PinterestScraper.scrape_pinterest self keyword max_items w1
  = (Ok items1, w1') ->
  PinterestScraper.scrape_pinterest self keyword max_items w2
  = (Ok items2, w2') ->
  without_engagement <$> items1 = without_engagement <$> items2.
Proof.
  intros Hnet H1 H2.
  rewrite scrape_pinterest_unfold, fetch_outcome in H1, H2.
  rewrite <- Hnet in H2.
  set (r := match network w1 (request_for self keyword) with
            | Ok resp =>
                if (400 <=? status_code resp) && (status_code resp <? 600)
                then Raise (HTTPError (status_code resp))
                else match body resp with
                     | Some data => Ok data
                     | None => Raise JSONDecodeError
                     end
            | Raise e => Raise e
            end) in *.
  destruct r as [data|e].
  - pose proof (normalize_without_engagement keyword max_items data
                  (after_request (request_for self keyword) w1)
                  (after_request (request_for self keyword) w2)) as H.
    now rewrite H1, H2 in H.
  - pose proof (generate_mock_items_without_engagement keyword max_items
                  (after_request (request_for self keyword) w1)
                  (after_request (request_for self keyword) w2)) as H.
    now rewrite H1, H2 in H.
Qed.

Lemma only_engagement_is_random_witness :
  exists items1 items2,
    fst (PinterestScraper.scrape_pinterest sample_self "boho" 2
           (sample_world with_key (answer three_pins)))
    = Ok items1
    /\ fst (PinterestScraper.scrape_pinterest sample_self "boho" 2
              (after_draw (sample_world with_key (answer three_pins))))
       = Ok items2
    /\ Item.likes <$> items1 <> Item.likes <$> items2
    /\ without_engagement <$> items1 = without_engagement <$> items2.
Proof.
  eexists. eexists. split; [reflexivity|]. split; [reflexivity|].
  split; [discriminate|].
  exact (only_engagement_is_random sample_self "boho" 2
           (sample_world with_key (answer three_pins))
           (after_draw (sample_world with_key (answer three_pins)))
           _ _ _ _ eq_refl eq_refl eq_refl).
Defined.

(** X17. A result is never a mix: the list the method returns is either
    made of fallback items only, one for each index of [range(max_items)],
    or of mapped records only, one for each element of the sliced
    ["pins"] value of the payload, in order. *)
Theorem never_mixes_real_and_fallback (self : PinterestScraper.t)
    (keyword : string) (max_items : Z) (w : World) :
  exists items w',
    PinterestScraper.scrape_pinterest self keyword max_items w = (Ok items, w')
    /\ (Forall2 (is_mock_item keyword) (range max_items) items
        \/ exists m pins sl elems,
             fst (PinterestScraper.fetch self keyword w) = Ok (PyDict m)
             /\ truthy (default PyNone (m !! "success")) = true
             /\ default (PyList []) (m !! "pins") = pins
             /\ py_slice_to pins max_items = Ok sl
             /\ py_iter sl = Ok elems
             /\ mapped keyword 0 elems items).
Proof.
  destruct (scrape_pinterest_total self keyword max_items w)
    as (items & w' & Hrun).
  exists items, w'. split; [exact Hrun|].
  rewrite scrape_pinterest_unfold in Hrun.
  assert (Hgen : forall w1,
             PinterestScraper._generate_mock_items keyword max_items w1
             = (Ok items, w') ->
             Forall2 (is_mock_item keyword) (range max_items) items).
  { intros w1 H.
    destruct (generate_mock_items_spec keyword max_items w1)
      as (items' & w'' & Hgen' & Hall & _).
    rewrite H in Hgen'. now injection Hgen' as <- _. }
  destruct (PinterestScraper.fetch self keyword w) as [[data|e] w1];
    [|left; eauto].
  unfold try_except in Hrun.
  destruct (PinterestScraper.normalize keyword max_items data w1)
    as [[its|e] w2] eqn:Hn; [|left; eauto].
  injection Hrun as -> ->.
  unfold PinterestScraper.normalize in Hn.
  apply bind_lift_inv_Ok in Hn as (success & Hsuccess & Hn).
  destruct data as [| | | | | |m]; try discriminate Hsuccess.
  simpl in Hsuccess. injection Hsuccess as <-.
  destruct (truthy (default PyNone (m !! "success"))) eqn:Hs; simpl in Hn;
    [|left; eauto].
  apply bind_lift_inv_Ok in Hn as (pins & Hpins & Hn).
  simpl in Hpins. injection Hpins as <-.
  apply bind_lift_inv_Ok in Hn as (sl & Hsl & Hn).
  apply bind_lift_inv_Ok in Hn as (elems & Hit & Hn).
  apply pin_loop_inv in Hn as (new & -> & Hnew).
  right. exists m, (default (PyList []) (m !! "pins")), sl, elems.
  now repeat split.
Qed.
